(** * Fridgetracker REST API: authentication, capability gate, webhook
      registration and the expiration cleanout cycle.

    A shallow embedding of
      - src/routes/api/v1/fridge-router.js  (hasPermission, authenticateJWT)
      - src/services/webhook.js             (WebhookService.checkFridges)
      - src/controllers/fridge-controller.js
      - src/controllers/product-controller.js
      - src/server.js                       (the error handler)
    Handlers are written in a state-and-exception monad over a world made of
    the two MongoDB collections, the trace of outbound HTTP calls and the
    calls a handler makes on [res] and [next].  A request is served to its
    end before the next one starts.  What the libraries and the network
    decide (jwt.verify, fetch, Mongoose's casts, trim, Date parsing) is a
    parameter, the class [Runtime]. *)

From Stdlib Require Import ZArith List String Ascii Bool Lia DecimalString.
Import ListNotations.

Local Open Scope string_scope.
Local Open Scope list_scope.
Local Open Scope Z_scope.

(* ===================================================================== *)
(** ** JavaScript values and primitives used by the handlers             *)
(* ===================================================================== *)

Module JS.

(** ToInt32 of an integral Number: reduction modulo 2^32 into
    [-2^31, 2^31). *)
Definition ToInt32 (n : Z) : Z :=
  (n + 2 ^ 31) mod 2 ^ 32 - 2 ^ 31.

(** [a & b]: both operands go through ToInt32. *)
Definition bitand (a b : Z) : Z :=
  Z.land (ToInt32 a) (ToInt32 b).

(** Truthiness of a Number: everything but 0 (NaN is not an integer). *)
Definition truthy_num (n : Z) : bool := negb (n =? 0).

(** Truthiness of a possibly absent string property: [undefined] and the
    empty string are falsy. *)
Definition truthy (v : option string) : bool :=
  match v with
  | None => false
  | Some s => negb (s =? EmptyString)%string
  end.

(** Truthiness of a possibly absent Number property. *)
Definition truthy_optnum (v : option Z) : bool :=
  match v with
  | None => false
  | Some n => truthy_num n
  end.

(** [s.split(sep)] for a one-character separator: never empty, one more
    piece than there are separators. *)
Fixpoint split (sep : ascii) (s : string) : list string :=
  match s with
  | EmptyString => [EmptyString]
  | String c rest =>
      if Ascii.eqb c sep then EmptyString :: split sep rest
      else match split sep rest with
           | [] => [String c EmptyString]
           | w :: ws => String c w :: ws
           end
  end.

(** A possibly absent string property, when it is truthy. *)
Definition present (v : option string) : option string :=
  match v with
  | None => None
  | Some s => if (s =? EmptyString)%string then None else Some s
  end.

(** A possibly absent Number property, when it is truthy. *)
Definition present_num (v : option Z) : option Z :=
  match v with
  | None => None
  | Some n => if truthy_num n then Some n else None
  end.

(** ToInt32 of a possibly [undefined] operand: [undefined] becomes NaN,
    and NaN becomes 0. *)
Definition ToInt32_opt (v : option Z) : Z :=
  match v with
  | None => 0
  | Some n => ToInt32 n
  end.

(** The double-quote character, as a string. *)
Definition dquote : string := String (ascii_of_nat 34) EmptyString.

(** [`${n}`] of an integral Number. *)
Definition show (n : Z) : string := NilZero.string_of_int (Z.to_int n).

(** [`${v}`] of a possibly absent string. *)
Definition template (v : option string) : string :=
  match v with
  | None => "undefined"
  | Some s => s
  end.

(** [c] occurs in [s]. *)
Fixpoint mem (c : ascii) (s : string) : bool :=
  match s with
  | EmptyString => false
  | String d rest => Ascii.eqb d c || mem c rest
  end.

(** [s.length]: the number of UTF-16 code units of the string whose
    UTF-8 bytes [s] holds.  A continuation byte adds none, the lead byte
    of a four-byte sequence adds two (a surrogate pair), every other byte
    one. *)
Definition codeUnits (c : ascii) : nat :=
  let n := nat_of_ascii c in
  if (n <? 128)%nat then 1%nat
  else if (n <? 192)%nat then 0%nat
  else if (n <? 240)%nat then 1%nat
  else 2%nat.

Fixpoint length (s : string) : nat :=
  match s with
  | EmptyString => 0%nat
  | String c rest => (codeUnits c + length rest)%nat
  end.

End JS.

(* ===================================================================== *)
(** ** Errors and what a handler hands to Express                        *)
(* ===================================================================== *)

(** Exceptions the handlers meet.  [HttpError] is what [createError]
    builds; its [cause] is the [error.cause] the handlers attach. *)
#[warnings="-register-all"]
Inductive Exn : Type :=
| TypeError (msg : string)
| Error (msg : string)
| JsonWebTokenError
| CastError (kind : string)
| ValidationError
| FetchFailed
| HttpError (status : Z) (message : option string) (cause : option Exn).

Definition createError (status : Z) : Exn := HttpError status None None.
Definition createErrorMsg (status : Z) (msg : string) : Exn :=
  HttpError status (Some msg) None.

(** One call on [res] or [next]. *)
Inductive Reply : Type :=
| Res (status : Z)        (* res.status(n)....end() / res.json(...) *)
| Next                    (* next() *)
| NextErr (e : Exn).      (* next(err) *)

(** server.js, the error handler: [err.status = err.status || 500]. *)
Definition errorStatus (e : Exn) : Z :=
  match e with
  | HttpError status _ _ => if JS.truthy_num status then status else 500
  | _ => 500
  end.

(** The status the client receives for a reply that ends the request. *)
Definition clientStatus (r : Reply) : option Z :=
  match r with
  | Res status => Some status
  | Next => None
  | NextErr e => Some (errorStatus e)
  end.

(* ===================================================================== *)
(** ** Documents, requests and the world                                  *)
(* ===================================================================== *)

Definition ObjectId := N.
Definition Date := Z.     (* milliseconds since the epoch *)

(** models/fridge.js *)
Record Fridge : Type := mkFridge {
  f_id : ObjectId;
  f_location : option string;
  f_name : string;
  f_ownerId : ObjectId;
  f_products : list ObjectId;
  f_temperature : option Z;
  f_webhookUrl : option string;
  f_webhookSecret : option string
}.

(** models/product.js *)
Record Product : Type := mkProduct {
  p_id : ObjectId;
  p_expirationDate : Date;
  p_price : option Z;
  p_name : string;
  p_fridgeId : ObjectId;
  p_category : option string
}.

(** The decoded token, as login signs it (user-controller.js). *)
Record Payload : Type := mkPayload {
  sub : string;
  given_name : string;
  family_name : string;
  email : string;
  id : string;
  x_permission_level : Z
}.

(** [req.user] as authenticateJWT builds it. *)
Record User : Type := mkUser {
  username : string;
  firstName : string;
  lastName : string;
  u_email : string;
  u_id : string;
  permissionLevel : Z
}.

(** The JSON body, at the types the API documents; an absent property is
    [None]. *)
Record Body : Type := mkBody {
  b_name : option string;
  b_location : option string;
  b_temperature : option Z;
  b_webhookUrl : option string;
  b_webhookSecret : option string;
  b_expirationDate : option string;
  b_price : option Z;
  b_category : option string;
  b_fridgeId : option string
}.

Record Request : Type := mkRequest {
  authorization : option string;   (* req.headers.authorization *)
  user : option User;              (* req.user *)
  params_id : string;              (* req.params.id *)
  fridgeId : string;               (* req.fridgeId, set by saveFridge *)
  body : Body
}.

(** The body of one outbound webhook call and the call itself. *)
Record Notification : Type := mkNotification {
  n_fridgeId : ObjectId;
  n_expiredProducts : list Product;
  n_secret : option string
}.

Record Outbound : Type := mkOutbound {
  o_url : string;
  o_body : Notification
}.

Inductive FetchOutcome : Type :=
| Resolved (status : Z)
| Rejected.

Record Store : Type := mkStore {
  fridges : list Fridge;
  products : list Product
}.

Record World : Type := mkWorld {
  db : Store;               (* persisted state *)
  sent : list Outbound;     (* outbound calls attempted so far *)
  replied : list Reply;     (* calls on res / next, oldest first *)
  idgen : N                 (* source of fresh ObjectIds *)
}.

(** What the platform supplies: the libraries and the network. *)
Class Runtime : Type := {
  (** [jwt.verify(token, process.env.PUBLIC_KEY)]; [None] when it throws. *)
  jwt_verify : option string -> option Payload;
  (** The outcome of the n-th outbound call. *)
  fetch_outcome : nat -> Outbound -> FetchOutcome;
  (** Mongoose's cast of a string to an ObjectId. *)
  castObjectId : string -> option ObjectId;
  (** String.prototype.trim, the schema's [trim: true]. *)
  str_trim : string -> string;
  (** [new Date(s)] and [Date.parse(s)]; [None] for an Invalid Date. *)
  date_parse : string -> option Date;
  (** Mongoose's cast of a string to a Date. *)
  castDate : string -> option Date
}.

(* ===================================================================== *)
(** ** The handler monad: world passing with exceptions                   *)
(* ===================================================================== *)

Inductive Result (A : Type) : Type :=
| Ok (a : A)
| Throw (e : Exn).
Arguments Ok {A} a.
Arguments Throw {A} e.

Definition M (A : Type) : Type := World -> World * Result A.

Definition ret {A} (a : A) : M A := fun w => (w, Ok a).

Definition bind {A B} (m : M A) (k : A -> M B) : M B :=
  fun w =>
    match m w with
    | (w', Ok a) => k a w'
    | (w', Throw e) => (w', Throw e)
    end.

Definition throw {A} (e : Exn) : M A := fun w => (w, Throw e).

(** [try { body } catch (error) { handler }]: what [body] did before it
    threw stays done. *)
Definition try_catch {A} (body : M A) (handler : Exn -> M A) : M A :=
  fun w =>
    match body w with
    | (w', Ok a) => (w', Ok a)
    | (w', Throw e) => handler e w'
    end.

Declare Scope handler_scope.
Delimit Scope handler_scope with handler.
Notation "x <- c ;; k" := (bind c (fun x => k))
  (at level 100, c at next level, right associativity) : handler_scope.
Notation "c ;;; k" := (bind c (fun _ => k))
  (at level 100, right associativity) : handler_scope.
Local Open Scope handler_scope.

Definition when_ (c : bool) (m : M unit) : M unit :=
  if c then m else ret tt.

(** *** Effects *)

Definition reply (r : Reply) : M unit :=
  fun w => (mkWorld (db w) (sent w) (replied w ++ [r]) (idgen w), Ok tt).

Definition next (e : Exn) : M unit := reply (NextErr e).
Definition res_status (status : Z) : M unit := reply (Res status).

Definition getStore : M Store := fun w => (w, Ok (db w)).

Definition putStore (s : Store) : M unit :=
  fun w => (mkWorld s (sent w) (replied w) (idgen w), Ok tt).

Definition newObjectId : M ObjectId :=
  fun w => (mkWorld (db w) (sent w) (replied w) (N.succ (idgen w)),
            Ok (idgen w)).

(** [await fetch(url, { method: 'POST', body })]: the attempt is on the
    trace whatever comes of it; a rejected promise is an exception. *)
Definition fetch `{Runtime} (o : Outbound) : M Z :=
  fun w =>
    let w' := mkWorld (db w) (sent w ++ [o]) (replied w) (idgen w) in
    match fetch_outcome (List.length (sent w)) o with
    | Resolved status => (w', Ok status)
    | Rejected => (w', Throw FetchFailed)
    end.

(** [response.ok] *)
Definition response_ok (status : Z) : bool :=
  (200 <=? status) && (status <=? 299).

(* ===================================================================== *)
(** ** Mongoose: the two models                                           *)
(* ===================================================================== *)

Module Mongoose.

(** A collection is the list of its documents, oldest first; a query
    returns them in that order. *)

Definition hasId (oid : ObjectId) (f : Fridge) : bool := N.eqb (f_id f) oid.
Definition hasPid (oid : ObjectId) (p : Product) : bool := N.eqb (p_id p) oid.

(** Replace the first document that satisfies [sel]. *)
Fixpoint replaceFirst {A} (sel : A -> bool) (a' : A) (l : list A) : list A :=
  match l with
  | [] => []
  | a :: l' => if sel a then a' :: l' else a :: replaceFirst sel a' l'
  end.

(** Remove the first document that satisfies [sel]. *)
Fixpoint removeFirst {A} (sel : A -> bool) (l : list A) : list A :=
  match l with
  | [] => []
  | a :: l' => if sel a then l' else a :: removeFirst sel l'
  end.

(** The Fridge schema's validators: [name] required, [name] and
    [location] at most 256 long, as [value.length] counts. *)
Definition validFridge (f : Fridge) : bool :=
  negb (f_name f =? EmptyString)%string
  && (JS.length (f_name f) <=? 256)%nat
  && match f_location f with
     | None => true
     | Some l => (JS.length l <=? 256)%nat
     end.

(** The cast of a query's [_id]; a failure is a CastError of kind
    ObjectId. *)
Definition castId `{Runtime} (s : string) : M ObjectId :=
  match castObjectId s with
  | Some oid => ret oid
  | None => throw (CastError "ObjectId")
  end.

(** [Fridge.find({ webhookUrl: { $exists: true } })] *)
Definition Fridge_find_webhook : M (list Fridge) :=
  s <- getStore ;;
  ret (filter (fun f => match f_webhookUrl f with
                        | Some _ => true
                        | None => false
                        end) (fridges s)).

(** [Fridge.find({ ownerId })] *)
Definition Fridge_find_owner `{Runtime} (owner : string) : M (list Fridge) :=
  oid <- castId owner ;;
  s <- getStore ;;
  ret (filter (fun f => N.eqb (f_ownerId f) oid) (fridges s)).

(** [Fridge.findOne({ name })]; the schema's trim runs on the query
    value as it does on a stored one. *)
Definition Fridge_findOne_name `{Runtime} (name : string) : M (option Fridge) :=
  s <- getStore ;;
  ret (find (fun f => (f_name f =? str_trim name)%string) (fridges s)).

Definition Fridge_findByOid (oid : ObjectId) : M (option Fridge) :=
  s <- getStore ;;
  ret (find (hasId oid) (fridges s)).

(** [Fridge.findById(id)] with the id still a string. *)
Definition Fridge_findById `{Runtime} (s : string) : M (option Fridge) :=
  oid <- castId s ;;
  Fridge_findByOid oid.

Definition Product_findByOid (oid : ObjectId) : M (option Product) :=
  s <- getStore ;;
  ret (find (hasPid oid) (products s)).

Definition Product_findById `{Runtime} (s : string) : M (option Product) :=
  oid <- castId s ;;
  Product_findByOid oid.

(** [Product.find({ fridgeId })] *)
Definition Product_find_fridge `{Runtime} (s : string) : M (list Product) :=
  oid <- castId s ;;
  st <- getStore ;;
  ret (filter (fun p => N.eqb (p_fridgeId p) oid) (products st)).

(** [doc.save()] of a new fridge. *)
Definition Fridge_insert (f : Fridge) : M unit :=
  if validFridge f then
    s <- getStore ;;
    putStore (mkStore (fridges s ++ [f]) (products s))
  else throw ValidationError.

(** [doc.save()] of a fridge read from the collection.  The whole
    document goes through the validators. *)
Definition Fridge_save (f : Fridge) : M unit :=
  if validFridge f then
    s <- getStore ;;
    if existsb (hasId (f_id f)) (fridges s) then
      putStore (mkStore (replaceFirst (hasId (f_id f)) f (fridges s))
                        (products s))
    else throw (Error "DocumentNotFoundError")
  else throw ValidationError.

(** [fridge.deleteOne()] *)
Definition Fridge_deleteOne (oid : ObjectId) : M unit :=
  s <- getStore ;;
  putStore (mkStore (removeFirst (hasId oid) (fridges s)) (products s)).

(** [doc.save()] of a new product; its required paths have been checked
    by the caller, which holds them as options. *)
Definition Product_insert (p : Product) : M unit :=
  s <- getStore ;;
  putStore (mkStore (fridges s) (products s ++ [p])).

(** [doc.save()] of a product read from the collection. *)
Definition Product_save (p : Product) : M unit :=
  s <- getStore ;;
  if existsb (hasPid (p_id p)) (products s) then
    putStore (mkStore (fridges s)
                      (replaceFirst (hasPid (p_id p)) p (products s)))
  else throw (Error "DocumentNotFoundError").

(** [Product.deleteOne({ _id })] *)
Definition Product_deleteOne (oid : ObjectId) : M unit :=
  s <- getStore ;;
  putStore (mkStore (fridges s) (removeFirst (hasPid oid) (products s))).

End Mongoose.

(* ===================================================================== *)
(** ** routes/api/v1/fridge-router.js: the two middlewares                *)
(* ===================================================================== *)

Module PermissionLevels.
Definition READ : Z := 1.
Definition CREATE : Z := 2.
Definition UPDATE : Z := 4.
Definition DELETE : Z := 8.
End PermissionLevels.

(** The four flags, for statements that range over "a single flag". *)
Inductive Flag : Type := READ | CREATE | UPDATE | DELETE.

Definition flagValue (f : Flag) : Z :=
  match f with
  | READ => PermissionLevels.READ
  | CREATE => PermissionLevels.CREATE
  | UPDATE => PermissionLevels.UPDATE
  | DELETE => PermissionLevels.DELETE
  end.

(** [req.user?.permissionLevel] *)
Definition userPermissionLevel (req : Request) : option Z :=
  option_map permissionLevel (user req).

(** [req.user?.permissionLevel & permissionLevel ? next() :
    next(createError(403))] *)
Definition hasPermission (req : Request) (permissionLevel : Z) : Reply :=
  if JS.truthy_num
       (Z.land (JS.ToInt32_opt (userPermissionLevel req))
               (JS.ToInt32 permissionLevel))
  then Next
  else NextErr (createError 403).

Definition setUser (req : Request) (u : User) : Request :=
  mkRequest (authorization req) (Some u) (params_id req) (fridgeId req)
            (body req).

(** The [try] block of authenticateJWT: the request with [req.user]
    populated, or what was thrown. *)
Definition authenticateJWT_try `{Runtime} (req : Request) : Request + Exn :=
  match authorization req with
  | None => inr (TypeError "undefined is not iterable")
  | Some header =>
      let parts := JS.split " " header in
      let authenticationScheme := nth_error parts 0 in
      let token := nth_error parts 1 in
      if match authenticationScheme with
         | Some scheme => negb (scheme =? "Bearer")%string
         | None => true
         end
      then inr (Error "Invalid authentication scheme.")
      else
        match jwt_verify token with
        | None => inr JsonWebTokenError
        | Some payload =>
            inl (setUser req
                   (mkUser (sub payload) (given_name payload)
                           (family_name payload) (email payload)
                           (id payload) (x_permission_level payload)))
        end
  end.

(** authenticateJWT: the request it leaves and its call on [next]. *)
Definition authenticateJWT `{Runtime} (req : Request) : Request * Reply :=
  match authenticateJWT_try req with
  | inl req' => (req', Next)
  | inr err => (req, NextErr (HttpError 401 None (Some err)))
  end.

(* ===================================================================== *)
(** ** services/webhook.js                                                *)
(* ===================================================================== *)

(** A fridge document with the [expiredProducts] the scan hangs on it. *)
Record ScannedFridge : Type := mkScanned {
  doc : Fridge;
  expiredProducts : list Product
}.

Module WebhookService.
Import Mongoose.

(** The inner loop, [for (const productId of fridge.products)];
    [expired] is [fridge.expiredProducts] so far. *)
Fixpoint scanProducts (date : Date) (ids : list ObjectId)
    (expired : list Product) : M (list Product) :=
  match ids with
  | [] => ret expired
  | productId :: rest =>
      product <- Product_findByOid productId ;;
      match product with
      | None =>
          throw (TypeError
                   "Cannot read properties of null (reading 'expirationDate')")
      | Some product =>
          if p_expirationDate product <? date
          then scanProducts date rest (expired ++ [product])
          else scanProducts date rest expired
      end
  end.

(** The outer loop, [for (const fridge of webhookFridges)]. *)
Fixpoint scanFridges (date : Date) (webhookFridges : list Fridge)
    : M (list ScannedFridge) :=
  match webhookFridges with
  | [] => ret []
  | fridge :: rest =>
      expired <- (if (0 <? List.length (f_products fridge))%nat
                  then scanProducts date (f_products fridge) []
                  else ret []) ;;
      scanned <- scanFridges date rest ;;
      ret (mkScanned fridge expired :: scanned)
  end.

Definition checkFridges (date : Date) : M (list ScannedFridge) :=
  webhookFridges <- Fridge_find_webhook ;;
  scanFridges date webhookFridges.

End WebhookService.

(* ===================================================================== *)
(** ** controllers/fridge-controller.js                                   *)
(* ===================================================================== *)

(** [error.kind === 'ObjectId'] *)
Definition kindIsObjectId (error : Exn) : bool :=
  match error with
  | CastError kind => (kind =? "ObjectId")%string
  | _ => false
  end.

(** The [catch] block most handlers share. *)
Definition catchObjectId (error : Exn) : M unit :=
  if kindIsObjectId error then next (createError 404) else next error.

(** [req.user.id] *)
Definition reqUserId (req : Request) : M string :=
  match user req with
  | None => throw (TypeError "Cannot read properties of undefined (reading 'id')")
  | Some u => ret (u_id u)
  end.

(** Assignments to the paths of a fridge document; [name] and [location]
    go through the schema's trim. *)
Definition setName `{Runtime} (f : Fridge) (v : string) : Fridge :=
  mkFridge (f_id f) (f_location f) (str_trim v) (f_ownerId f) (f_products f)
           (f_temperature f) (f_webhookUrl f) (f_webhookSecret f).

Definition setLocation `{Runtime} (f : Fridge) (v : string) : Fridge :=
  mkFridge (f_id f) (Some (str_trim v)) (f_name f) (f_ownerId f)
           (f_products f) (f_temperature f) (f_webhookUrl f)
           (f_webhookSecret f).

Definition setTemperature (f : Fridge) (v : Z) : Fridge :=
  mkFridge (f_id f) (f_location f) (f_name f) (f_ownerId f) (f_products f)
           (Some v) (f_webhookUrl f) (f_webhookSecret f).

Definition setProducts (f : Fridge) (v : list ObjectId) : Fridge :=
  mkFridge (f_id f) (f_location f) (f_name f) (f_ownerId f) v
           (f_temperature f) (f_webhookUrl f) (f_webhookSecret f).

Definition setWebhook (f : Fridge) (url secret : option string) : Fridge :=
  mkFridge (f_id f) (f_location f) (f_name f) (f_ownerId f) (f_products f)
           (f_temperature f) url secret.

(** The three guarded assignments putEdit and patchEdit share:
    [if (req.body.name) fridge.name = req.body.name], and so on. *)
Definition applyEdits `{Runtime} (fridge : Fridge) (b : Body) : Fridge :=
  let fridge := match JS.present (b_name b) with
                | Some v => setName fridge v
                | None => fridge
                end in
  let fridge := match JS.present (b_location b) with
                | Some v => setLocation fridge v
                | None => fridge
                end in
  match JS.present_num (b_temperature b) with
  | Some v => setTemperature fridge v
  | None => fridge
  end.

(** The webhook call for one scanned fridge. *)
Definition webhookCall (fridge : ScannedFridge) : Outbound :=
  mkOutbound (JS.template (f_webhookUrl (doc fridge)))
             (mkNotification (f_id (doc fridge)) (expiredProducts fridge)
                             (f_webhookSecret (doc fridge))).

Module FridgeController.
Import Mongoose.

(** Response bodies are left out: a reply is its status. *)
Definition findAll `{Runtime} (req : Request) : M unit :=
  try_catch
    (owner <- reqUserId req ;;
     fridges <- Fridge_find_owner owner ;;
     res_status 200)
    (fun error => next error).

Definition findById `{Runtime} (req : Request) : M unit :=
  try_catch
    (fridge <- Fridge_findById (params_id req) ;;
     match fridge with
     | None => next (createError 404)
     | Some _ => res_status 200
     end)
    catchObjectId.

Definition create `{Runtime} (req : Request) : M unit :=
  try_catch
    (match JS.present (b_name (body req)) with
     | None => next (createErrorMsg 400 "Bad request: Missing name for fridge.")
     | Some name =>
         existingFridge <- Fridge_findOne_name name ;;
         match existingFridge with
         | Some _ => next (createErrorMsg 409 "Fridge with this name already exists.")
         | None =>
             owner <- reqUserId req ;;
             oid <- newObjectId ;;
             match castObjectId owner with
             | None => throw ValidationError
             | Some ownerId =>
                 Fridge_insert
                   (mkFridge oid (option_map str_trim (b_location (body req)))
                             (str_trim name) ownerId [] None None None) ;;;
                 res_status 201
             end
         end
     end)
    (fun error => next error).

Definition putEdit `{Runtime} (req : Request) : M unit :=
  try_catch
    (fridge <- Fridge_findById (params_id req) ;;
     match fridge with
     | None => next (createError 404)
     | Some fridge =>
         if negb (JS.truthy (b_name (body req)))
         then next (createErrorMsg 400 "Bad request: Missing new name.")
         else if JS.truthy (f_location fridge)
                 && negb (JS.truthy (b_location (body req)))
         then next (createErrorMsg 400 "Bad request: Missing new location.")
         else if JS.truthy_optnum (f_temperature fridge)
                 && negb (JS.truthy_optnum (b_temperature (body req)))
         then next (createErrorMsg 400 "Bad request: Missing new temperature.")
         else
           Fridge_save (applyEdits fridge (body req)) ;;;
           res_status 200
     end)
    catchObjectId.

Definition patchEdit `{Runtime} (req : Request) : M unit :=
  try_catch
    (fridge <- Fridge_findById (params_id req) ;;
     match fridge with
     | None => next (createError 404)
     | Some fridge =>
         if negb (JS.truthy (b_name (body req)))
            && negb (JS.truthy (b_location (body req)))
            && negb (JS.truthy_optnum (b_temperature (body req)))
         then next (createErrorMsg 400 "Bad request: No changes made")
         else
           Fridge_save (applyEdits fridge (body req)) ;;;
           res_status 200
     end)
    catchObjectId.

(** [for (const productId of fridge.products) await Product.deleteOne(..)] *)
Fixpoint deleteProducts (ids : list ObjectId) : M unit :=
  match ids with
  | [] => ret tt
  | productId :: rest => Product_deleteOne productId ;;; deleteProducts rest
  end.

Definition delete `{Runtime} (req : Request) : M unit :=
  try_catch
    (fridge <- Fridge_findById (params_id req) ;;
     match fridge with
     | None => next (createError 404)
     | Some fridge =>
         deleteProducts (f_products fridge) ;;;
         Fridge_deleteOne (f_id fridge) ;;;
         res_status 204
     end)
    catchObjectId.

(** The loop of cleanOut.  The error built for a response that is not ok
    is bound and dropped, as in the source. *)
Fixpoint dispatch `{Runtime} (webhookFridges : list ScannedFridge) : M unit :=
  match webhookFridges with
  | [] => ret tt
  | fridge :: rest =>
      status <- fetch (webhookCall fridge) ;;
      if negb (response_ok status)
      then let error := Error ("Webhook error " ++ JS.show status) in
           dispatch rest
      else dispatch rest
  end.

(** [currentDate] is the [new Date()] the handler starts with. *)
Definition cleanOut `{Runtime} (currentDate : Date) : M unit :=
  try_catch
    (webhookFridges <- WebhookService.checkFridges currentDate ;;
     dispatch webhookFridges ;;;
     res_status 204)
    (fun error => next error).

Definition registerWebhook `{Runtime} (req : Request) : M unit :=
  try_catch
    (fridge <- Fridge_findById (params_id req) ;;
     match fridge with
     | None => next (createError 404)
     | Some fridge =>
         if negb (JS.truthy (b_webhookUrl (body req)))
            || negb (JS.truthy (b_webhookSecret (body req)))
         then next (createErrorMsg 400
                      "Bad request: Missing webhookUrl or webhookSecret.")
         else
           Fridge_save (setWebhook fridge (b_webhookUrl (body req))
                                   (b_webhookSecret (body req))) ;;;
           res_status 204
     end)
    (fun error => next error).

End FridgeController.

(* ===================================================================== *)
(** ** controllers/product-controller.js                                  *)
(* ===================================================================== *)

(** [new Date(req.body.expirationDate)]; [None] is an Invalid Date. *)
Definition newDate `{Runtime} (v : option string) : option Date :=
  match v with
  | None => None
  | Some s => date_parse s
  end.

(** The guarded assignments putEdit and patchEdit share.  [None] when the
    new [expirationDate] does not cast to a Date, which [save] rejects. *)
Definition applyProductEdits `{Runtime} (product : Product) (b : Body)
    : option Product :=
  match (match JS.present (b_expirationDate b) with
         | Some s => castDate s
         | None => Some (p_expirationDate product)
         end) with
  | None => None
  | Some date =>
      Some (mkProduct (p_id product) date
              (match JS.present_num (b_price b) with
               | Some v => Some v
               | None => p_price product
               end)
              (match JS.present (b_name b) with
               | Some v => v
               | None => p_name product
               end)
              (p_fridgeId product)
              (match JS.present (b_category b) with
               | Some v => Some v
               | None => p_category product
               end))
  end.

Module ProductController.
Import Mongoose.

Definition findAll `{Runtime} (req : Request) : M unit :=
  try_catch
    (fridge <- Fridge_findById (fridgeId req) ;;
     match fridge with
     | None => next (createErrorMsg 404 "Fridge not existing")
     | Some _ =>
         products <- Product_find_fridge (fridgeId req) ;;
         res_status 200
     end)
    (fun error => next error).

Definition findById `{Runtime} (req : Request) : M unit :=
  try_catch
    (product <- Product_findById (params_id req) ;;
     match product with
     | None => next (createError 404)
     | Some _ => res_status 200
     end)
    catchObjectId.

(** Neither 400 branch returns: the handler goes on to build and save the
    product, and the schema's required paths decide. *)
Definition create `{Runtime} (req : Request) : M unit :=
  try_catch
    (when_ (negb (JS.truthy (b_name (body req))))
       (next (createErrorMsg 400 "Bad request: Missing name")) ;;;
     when_ (negb (JS.truthy (b_expirationDate (body req)))
            || match newDate (b_expirationDate (body req)) with
               | None => true
               | Some _ => false
               end)
       (next (createErrorMsg 400
                ("Bad request: Missing expiration date or invalid date format. "
                 ++ JS.dquote ++ "YYYY-MM-DD" ++ JS.dquote ++ " expected."))) ;;;
     oid <- newObjectId ;;
     match newDate (b_expirationDate (body req)),
           JS.present (b_name (body req)),
           castObjectId (fridgeId req) with
     | Some date, Some name, Some fid =>
         Product_insert (mkProduct oid date (b_price (body req)) name fid
                                   (b_category (body req)))
     | _, _, _ => throw ValidationError
     end ;;;
     fridge <- Fridge_findById (fridgeId req) ;;
     match fridge with
     | None => next (createErrorMsg 404 "Fridge not existing")
     | Some fridge =>
         Fridge_save (setProducts fridge (f_products fridge ++ [oid])) ;;;
         res_status 201
     end)
    (fun error => next error).

Definition saveEdited `{Runtime} (product : Product) (b : Body) : M unit :=
  match applyProductEdits product b with
  | None => throw ValidationError
  | Some product' => Product_save product'
  end.

Definition putEdit `{Runtime} (req : Request) : M unit :=
  try_catch
    (product <- Product_findById (params_id req) ;;
     match product with
     | None => next (createError 404)
     | Some product =>
         if negb (JS.truthy (b_expirationDate (body req)))
            || negb (JS.truthy (b_name (body req)))
         then next (createErrorMsg 400 "Bad request: Missing expiratinDate or name")
         else if JS.truthy_optnum (p_price product)
                 && negb (JS.truthy_optnum (b_price (body req)))
         then next (createErrorMsg 400 "Bad request: New price must be provided.")
         else if JS.truthy (p_category product)
                 && negb (JS.truthy (b_category (body req)))
         then next (createErrorMsg 400 "Bad request: New category must be provided.")
         else
           saveEdited product (body req) ;;;
           res_status 200
     end)
    catchObjectId.

Definition patchEdit `{Runtime} (req : Request) : M unit :=
  try_catch
    (product <- Product_findById (params_id req) ;;
     match product with
     | None => next (createError 404)
     | Some product =>
         if negb (JS.truthy (b_expirationDate (body req)))
            && negb (JS.truthy (b_fridgeId (body req)))
            && negb (JS.truthy (b_name (body req)))
            && negb (JS.truthy_optnum (b_price (body req)))
            && negb (JS.truthy (b_category (body req)))
         then next (createErrorMsg 400 "Bad request: No changes made")
         else
           saveEdited product (body req) ;;;
           res_status 200
     end)
    catchObjectId.

Definition delete `{Runtime} (req : Request) : M unit :=
  try_catch
    (product <- Product_findById (params_id req) ;;
     match product with
     | None => next (createErrorMsg 404 "Product not existing")
     | Some product =>
         fridge <- Fridge_findById (fridgeId req) ;;
         match fridge with
         | None => next (createErrorMsg 404 "Fridge not existing")
         | Some fridge =>
             Fridge_save
               (setProducts fridge
                  (removeFirst (N.eqb (p_id product)) (f_products fridge))) ;;;
             Product_deleteOne (p_id product) ;;;
             res_status 204
         end
     end)
    catchObjectId.

End ProductController.

(* ===================================================================== *)
(** ** The routes                                                         *)
(* ===================================================================== *)

(** [router.METHOD(path, authenticateJWT, [hasPermission,] handler)]: each
    middleware either hands on with [next()] or ends the request with
    [next(err)]. *)
Definition route `{Runtime} (permission : option Z)
    (handler : Request -> M unit) (req : Request) : M unit :=
  match authenticateJWT req with
  | (req', Next) =>
      match permission with
      | None => handler req'
      | Some level =>
          match hasPermission req' level with
          | Next => handler req'
          | r => reply r
          end
      end
  | (_, r) => reply r
  end.

(** routes/api/v1/router.js, [saveFridge], in front of the product routes. *)
Definition saveFridge (handler : Request -> M unit) (req : Request) : M unit :=
  if JS.truthy (Some (fridgeId req)) then handler req
  else next (createErrorMsg 400 "Fridge ID is missing").

Inductive Endpoint : Type :=
| GET_fridge (req : Request)
| GET_fridge_cleanout (currentDate : Date)
| POST_fridge (req : Request)
| GET_fridge_id (req : Request)
| PUT_fridge_id (req : Request)
| PATCH_fridge_id (req : Request)
| DELETE_fridge_id (req : Request)
| POST_fridge_id_webhook (req : Request)
| GET_product (req : Request)
| POST_product (req : Request)
| GET_product_id (req : Request)
| PUT_product_id (req : Request)
| PATCH_product_id (req : Request)
| DELETE_product_id (req : Request).

Definition serve `{Runtime} (ep : Endpoint) : M unit :=
  let READ := Some PermissionLevels.READ in
  match ep with
  | GET_fridge req => route None FridgeController.findAll req
  | GET_fridge_cleanout currentDate => FridgeController.cleanOut currentDate
  | POST_fridge req => route None FridgeController.create req
  | GET_fridge_id req => route READ FridgeController.findById req
  | PUT_fridge_id req => route READ FridgeController.putEdit req
  | PATCH_fridge_id req => route READ FridgeController.patchEdit req
  | DELETE_fridge_id req => route READ FridgeController.delete req
  | POST_fridge_id_webhook req => route READ FridgeController.registerWebhook req
  | GET_product req => saveFridge (route None ProductController.findAll) req
  | POST_product req => saveFridge (route None ProductController.create) req
  | GET_product_id req => saveFridge (route READ ProductController.findById) req
  | PUT_product_id req => saveFridge (route READ ProductController.putEdit) req
  | PATCH_product_id req => saveFridge (route READ ProductController.patchEdit) req
  | DELETE_product_id req => saveFridge (route READ ProductController.delete) req
  end.

(** One request served to its end: the world it leaves.  The reply log
    starts empty for each request. *)
Definition handle `{Runtime} (ep : Endpoint) (w : World) : World :=
  fst (serve ep (mkWorld (db w) (sent w) [] (idgen w))).

(** The worlds the public endpoints can produce from empty collections.
    The user endpoints (login, register) touch only the user collection and
    are not among them. *)
Inductive reachable `{Runtime} : World -> Prop :=
| reach_init : forall n, reachable (mkWorld (mkStore [] []) [] [] n)
| reach_step : forall w ep, reachable w -> reachable (handle ep w).

(* ===================================================================== *)
(** ** controllers/user-controller.js: login                              *)
(* ===================================================================== *)

(** The paths of an account that login reads. *)
Record Account : Type := mkAccount {
  a_username : string;
  a_firstName : string;
  a_lastName : string;
  a_email : string;
  a_id : string;
  a_permissionLevel : Z
}.

(** What the user model and jsonwebtoken supply to login. *)
Class Accounts : Type := {
  (** [User.authenticate(username, password)]: the account, or what it
      throws. *)
  User_authenticate : option string -> option string -> Account + Exn;
  (** [jwt.sign(payload, process.env.PRIVATE_KEY, { algorithm: 'RS256',
      expiresIn })]: the token, or what it throws. *)
  jwt_sign : Payload -> string + Exn
}.

Module UserController.

(** The payload login signs. *)
Definition payloadOf (user : Account) : Payload :=
  mkPayload (a_username user) (a_firstName user) (a_lastName user)
            (a_email user) (a_id user) (a_permissionLevel user).

(** login, called with [req.body.username] and [req.body.password].  Its
    result is the token of the response body, if it answered with one. *)
Definition login `{Accounts} (username password : option string)
    : M (option string) :=
  try_catch
    (match User_authenticate username password with
     | inr error => throw error
     | inl user =>
         match jwt_sign (payloadOf user) with
         | inr error => throw error
         | inl accessToken => res_status 200 ;;; ret (Some accessToken)
         end
     end)
    (fun error => next (HttpError 401 None (Some error)) ;;; ret None).

End UserController.

(* ===================================================================== *)
(** ** Sample data                                                        *)
(* ===================================================================== *)

Module Sample.

Definition alice : Payload :=
  mkPayload "alice" "Alice" "Andersson" "alice@example.org" "7" 1.

Definition emptyBody : Body :=
  mkBody None None None None None None None None None.

(** Milliseconds: a day, and three instants a day apart. *)
Definition day : Z := 86400000.
Definition today : Date := 1700000000000.
Definition yesterday : Date := today - day.
Definition tomorrow : Date := today + day.

Definition milk : Product := mkProduct 11%N yesterday None "milk" 1%N None.
Definition eggs : Product := mkProduct 12%N tomorrow None "eggs" 1%N None.
Definition ham : Product := mkProduct 31%N yesterday None "ham" 3%N None.

Definition kitchen : Fridge :=
  mkFridge 1%N None "kitchen" 10%N [11%N; 12%N] None
           (Some "http://a.example/hook") (Some "s1").
Definition cellar : Fridge :=
  mkFridge 2%N None "cellar" 10%N [] None
           (Some "http://b.example/hook") (Some "s2").
Definition garage : Fridge :=
  mkFridge 3%N None "garage" 10%N [31%N] None
           (Some "http://c.example/hook") (Some "s3").
(** A fridge whose [products] still lists product 99, which is gone. *)
Definition attic : Fridge :=
  mkFridge 4%N None "attic" 10%N [99%N] None
           (Some "http://d.example/hook") (Some "s4").
(** A fridge nobody registered a webhook for. *)
Definition plain : Fridge :=
  mkFridge 5%N None "plain" 10%N [] None None None.

Definition threeTargets : World :=
  mkWorld (mkStore [kitchen; plain; cellar; garage] [milk; eggs; ham])
          [] [] 100%N.

Definition dangling : World :=
  mkWorld (mkStore [attic; garage] [ham]) [] [] 100%N.

(** A platform on which the token ["good"] verifies, ids are one decimal
    digit, and the second outbound call of a run is refused. *)
Definition digit (s : string) : option ObjectId :=
  match s with
  | String c EmptyString =>
      let n := nat_of_ascii c in
      if ((48 <=? n) && (n <=? 57))%nat then Some (N.of_nat (n - 48)) else None
  | _ => None
  end.

Definition secondRefused : Runtime := {|
  jwt_verify := fun t =>
    match t with
    | Some s => if (s =? "good")%string then Some alice else None
    | None => None
    end;
  fetch_outcome := fun n _ => if (n =? 1)%nat then Rejected else Resolved 200;
  castObjectId := digit;
  str_trim := fun s => s;
  date_parse := fun _ => Some today;
  castDate := fun _ => Some today
|}.

(** The same platform with every call answered, the second with a 500. *)
Definition allAnswer : Runtime := {|
  jwt_verify := @jwt_verify secondRefused;
  fetch_outcome := fun n _ => if (n =? 1)%nat then Resolved 500 else Resolved 200;
  castObjectId := digit;
  str_trim := fun s => s;
  date_parse := fun _ => Some today;
  castDate := fun _ => Some today
|}.

(** The same platform with every call answered 200. *)
Definition allFine : Runtime := {|
  jwt_verify := @jwt_verify secondRefused;
  fetch_outcome := fun _ _ => Resolved 200;
  castObjectId := digit;
  str_trim := fun s => s;
  date_parse := fun _ => Some today;
  castDate := fun _ => Some today
|}.

(** What the scan of [threeTargets] returns today. *)
Definition kitchenScanned : ScannedFridge := mkScanned kitchen [milk].
Definition cellarScanned : ScannedFridge := mkScanned cellar [].
Definition garageScanned : ScannedFridge := mkScanned garage [ham].

(** A registration for fridge 1 that forgets the secret. *)
Definition noSecret : Request :=
  mkRequest (Some "Bearer good") None "1" EmptyString
            (mkBody None None None (Some "http://x.example/hook") None
                    None None None None).

(** A session against empty collections: two fridges, a webhook on the
    second, two products in the second, and the second product deleted
    through the first fridge's route. *)
Definition request (pid fid : string) (b : Body) : Request :=
  mkRequest (Some "Bearer good") None pid fid b.

Definition named (name : string) : Body :=
  mkBody (Some name) None None None None None None None None.

Definition hook : Body :=
  mkBody None None None (Some "http://b.example/hook") (Some "s2")
         None None None None.

Definition item (name : string) : Body :=
  mkBody (Some name) None None None None (Some "2023-11-14") None None None.

Definition session : list Endpoint :=
  [ POST_fridge (request "" "" (named "first"));
    POST_fridge (request "" "" (named "second"));
    POST_fridge_id_webhook (request "1" "" hook);
    POST_product (request "" "1" (item "milk"));
    POST_product (request "" "1" (item "eggs"));
    DELETE_product_id (request "3" "0" emptyBody) ].

Definition empty : World := mkWorld (mkStore [] []) [] [] 0%N.

(** The collections after the first five requests of the session: the
    second fridge lists the two stored products. *)
Definition stocked : World :=
  fold_left (fun w ep => @handle secondRefused ep w) (firstn 5 session) empty.

(** Requests of alice, already through authenticateJWT. *)
Definition asAlice (pid fid : string) (b : Body) : Request :=
  mkRequest (Some "Bearer good")
            (Some (mkUser "alice" "Alice" "Andersson" "alice@example.org"
                          "7" 1))
            pid fid b.

(** A patch body with a fridgeId and nothing else. *)
Definition moveTo (fid : string) : Body :=
  mkBody None None None None None None None None (Some fid).

(** A longer session: a fridge without webhook, then three fridges with
    one: the second keeps its product, the third loses its product
    through the first fridge's route, the fourth never had one. *)
Definition hookAt (url secret : string) : Body :=
  mkBody None None None (Some url) (Some secret) None None None None.

Definition longSession : list Endpoint :=
  [ POST_fridge (request "" "" (named "first"));
    POST_fridge (request "" "" (named "second"));
    POST_fridge (request "" "" (named "third"));
    POST_fridge (request "" "" (named "fourth"));
    POST_fridge_id_webhook (request "1" "" (hookAt "http://b.example/hook" "s2"));
    POST_fridge_id_webhook (request "2" "" (hookAt "http://c.example/hook" "s3"));
    POST_fridge_id_webhook (request "3" "" (hookAt "http://d.example/hook" "s4"));
    POST_product (request "" "1" (item "milk"));
    POST_product (request "" "2" (item "eggs"));
    DELETE_product_id (request "5" "0" emptyBody) ].

Definition afterLongSession : World :=
  fold_left (fun w ep => @handle secondRefused ep w) longSession empty.

(** A second user, and a platform that verifies a token for each. *)
Definition bob : Payload :=
  mkPayload "bob" "Bob" "Berg" "bob@example.org" "8" 3.

Definition twoUsers : Runtime := {|
  jwt_verify := fun t =>
    match t with
    | Some s => if (s =? "good")%string then Some alice
                else if (s =? "fine")%string then Some bob
                else None
    | None => None
    end;
  fetch_outcome := fun _ _ => Resolved 200;
  castObjectId := digit;
  str_trim := fun s => s;
  date_parse := fun _ => Some today;
  castDate := fun _ => Some today
|}.

(** The account behind the token ["good"]. *)
Definition aliceAccount : Account :=
  mkAccount "alice" "Alice" "Andersson" "alice@example.org" "7" 1.

Definition oneAccount : Accounts := {|
  User_authenticate := fun u p =>
    match u, p with
    | Some "alice", Some "secret" => inl aliceAccount
    | _, _ => inr (Error "Invalid credentials.")
    end;
  jwt_sign := fun _ => inl "good"
|}.

Definition afterSession : World :=
  fold_left (fun w ep => @handle secondRefused ep w) session empty.

End Sample.

(* ===================================================================== *)
(** ** Vocabulary of the statements                                       *)
(* ===================================================================== *)

(** [req.headers.authorization.split(' ')[0]] and [[1]]. *)
Definition schemeOf (header : string) : option string :=
  nth_error (JS.split " " header) 0.
Definition tokenOf (header : string) : option string :=
  nth_error (JS.split " " header) 1.

(** The item a reference resolves to, if it is still stored. *)
Definition lookupProduct (s : Store) (oid : ObjectId) : option Product :=
  find (Mongoose.hasPid oid) (products s).

(** The member items of a fridge: what its references resolve to, in the
    order of [fridge.products]. *)
Fixpoint resolve (s : Store) (ids : list ObjectId) : list Product :=
  match ids with
  | [] => []
  | oid :: rest =>
      match lookupProduct s oid with
      | Some p => p :: resolve s rest
      | None => resolve s rest
      end
  end.

Definition members (s : Store) (f : Fridge) : list Product :=
  resolve s (f_products f).

(** No reference of the fridge dangles. *)
Definition intact (s : Store) (f : Fridge) : bool :=
  forallb (fun oid => match lookupProduct s oid with
                      | Some _ => true
                      | None => false
                      end) (f_products f).

Definition hasWebhook (f : Fridge) : bool :=
  match f_webhookUrl f with
  | Some _ => true
  | None => false
  end.

(** The fridges the scan looks at. *)
Definition monitored (s : Store) : list Fridge :=
  filter hasWebhook (fridges s).

(** [expired(now)]: expirationDate strictly before [now]. *)
Definition expired (now : Date) (p : Product) : bool :=
  p_expirationDate p <? now.

(** What the scan returns for a fridge none of whose references dangles. *)
Definition scanned (now : Date) (s : Store) (f : Fridge) : ScannedFridge :=
  mkScanned f (filter (expired now) (members s f)).

(** Every one of [calls], made in this order from the [n]-th outbound call
    on, resolves to an HTTP response. *)
Fixpoint answered `{Runtime} (n : nat) (calls : list Outbound) : bool :=
  match calls with
  | [] => true
  | call :: rest =>
      match fetch_outcome n call with
      | Resolved _ => answered (S n) rest
      | Rejected => false
      end
  end.

(** The world after a handler attempted [calls] and replied [r]. *)
Definition after (w : World) (calls : list Outbound) (r : Reply) : World :=
  mkWorld (db w) (sent w ++ calls) (replied w ++ [r]) (idgen w).





(** Every stored fridge satisfies [phi]. *)
Definition Inv (phi : Fridge -> Prop) (w : World) : Prop :=
  Forall phi (fridges (db w)).

(** Handler code [m] preserves [Inv phi], whether it returns or throws,
    and what it returns satisfies [Q]. *)
Definition keeps (phi : Fridge -> Prop) {A} (m : M A) (Q : A -> Prop) : Prop :=
  forall w, Inv phi w ->
            Inv phi (fst (m w)) /\ forall a, snd (m w) = Ok a -> Q a.

(** The handler answered [r] and did nothing else to the world. *)
Definition answers (w w' : World) (r : Reply) : Prop :=
  db w' = db w
  /\ sent w' = sent w
  /\ idgen w' = idgen w
  /\ replied w' = replied w ++ [r].

(** What the fridge edits never assign: id, owner, references, target. *)
Definition fridgeCore (f : Fridge)
    : ObjectId * ObjectId * list ObjectId * option string * option string :=
  (f_id f, f_ownerId f, f_products f, f_webhookUrl f, f_webhookSecret f).

(** The document [create] builds for a request. *)
Definition newFridge `{Runtime} (oid owner : ObjectId) (name : string)
    (b : Body) : Fridge :=
  mkFridge oid (option_map str_trim (b_location b)) (str_trim name) owner
           [] None None None.

(** [req.params.id] replaced. *)
Definition withParamsId (req : Request) (s : string) : Request :=
  mkRequest (authorization req) (user req) s (fridgeId req) (body req).

(** What an edit of fridges with body [b] may have done between [w] and
    [w']: nothing to the products, the outbound trace, or the core of any
    fridge, and nothing to a path for which [b] has no truthy value. *)
Definition editFrame (b : Body) (w w' : World) : Prop :=
  map fridgeCore (fridges (db w')) = map fridgeCore (fridges (db w))
  /\ products (db w') = products (db w)
  /\ sent w' = sent w
  /\ (JS.truthy (b_name b) = false ->
      map f_name (fridges (db w')) = map f_name (fridges (db w)))
  /\ (JS.truthy (b_location b) = false ->
      map f_location (fridges (db w')) = map f_location (fridges (db w)))
  /\ (JS.truthy_optnum (b_temperature b) = false ->
      map f_temperature (fridges (db w'))
      = map f_temperature (fridges (db w))).

(** The product is none of the referenced ones. *)
Definition unreferenced (ids : list ObjectId) (p : Product) : bool :=
  negb (existsb (N.eqb (p_id p)) ids).

(** The request an endpoint is called with; the cleanout trigger has
    none. *)
Definition requestOf (ep : Endpoint) : option Request :=
  match ep with
  | GET_fridge_cleanout _ => None
  | GET_fridge req | POST_fridge req | GET_fridge_id req | PUT_fridge_id req
  | PATCH_fridge_id req | DELETE_fridge_id req | POST_fridge_id_webhook req
  | GET_product req | POST_product req | GET_product_id req
  | PUT_product_id req | PATCH_product_id req | DELETE_product_id req =>
      Some req
  end.

(** The controller method at the end of an endpoint's route. *)
Definition handlerOf `{Runtime} (ep : Endpoint) : Request -> M unit :=
  match ep with
  | GET_fridge _ => FridgeController.findAll
  | GET_fridge_cleanout currentDate =>
      fun _ => FridgeController.cleanOut currentDate
  | POST_fridge _ => FridgeController.create
  | GET_fridge_id _ => FridgeController.findById
  | PUT_fridge_id _ => FridgeController.putEdit
  | PATCH_fridge_id _ => FridgeController.patchEdit
  | DELETE_fridge_id _ => FridgeController.delete
  | POST_fridge_id_webhook _ => FridgeController.registerWebhook
  | GET_product _ => ProductController.findAll
  | POST_product _ => ProductController.create
  | GET_product_id _ => ProductController.findById
  | PUT_product_id _ => ProductController.putEdit
  | PATCH_product_id _ => ProductController.patchEdit
  | DELETE_product_id _ => ProductController.delete
  end.

(** The endpoints whose route has a hasPermission middleware. *)
Definition isGated (ep : Endpoint) : bool :=
  match ep with
  | GET_fridge_id _ | PUT_fridge_id _ | PATCH_fridge_id _
  | DELETE_fridge_id _ | POST_fridge_id_webhook _
  | GET_product_id _ | PUT_product_id _ | PATCH_product_id _
  | DELETE_product_id _ => true
  | _ => false
  end.

(** The endpoints behind saveFridge. *)
Definition isProductEndpoint (ep : Endpoint) : bool :=
  match ep with
  | GET_product _ | POST_product _ | GET_product_id _ | PUT_product_id _
  | PATCH_product_id _ | DELETE_product_id _ => true
  | _ => false
  end.

(** saveFridge lets the request through. *)
Definition passesSaveFridge (ep : Endpoint) (req : Request) : bool :=
  negb (isProductEndpoint ep) || JS.truthy (Some (fridgeId req)).

(** [m] calls neither [res] nor [next]. *)
Definition quiet {A} (m : M A) : Prop :=
  forall w, replied (fst (m w)) = replied w.

(** [m] calls [res] or [next] once if it returns and not at all if it
    throws. *)
Definition once (m : M unit) : Prop :=
  forall w,
    match m w with
    | (w', Ok _) => exists r, replied w' = replied w ++ [r]
    | (w', Throw _) => replied w' = replied w
    end.

(** [m] calls [res] or [next] exactly once, whatever happens. *)
Definition answersOnce (m : M unit) : Prop :=
  forall w, exists r, replied (fst (m w)) = replied w ++ [r].

Definition isProductCreate (ep : Endpoint) : bool :=
  match ep with
  | POST_product _ => true
  | _ => false
  end.

(** What an edit of products may have done between [w] and [w']: nothing
    to the fridges, the outbound trace, or the id and fridge of any
    product. *)
Definition productFrame (w w' : World) : Prop :=
  map (fun p => (p_id p, p_fridgeId p)) (products (db w'))
  = map (fun p => (p_id p, p_fridgeId p)) (products (db w))
  /\ fridges (db w') = fridges (db w)
  /\ sent w' = sent w.

(** The endpoints whose controller method reads [req.user]: the list of
    one's fridges and the creation of a fridge. *)
Definition readsUser (ep : Endpoint) : bool :=
  match ep with
  | GET_fridge _ | POST_fridge _ => true
  | _ => false
  end.

(** The principal authenticateJWT builds from a payload. *)
Definition principal (payload : Payload) : User :=
  mkUser (sub payload) (given_name payload) (family_name payload)
         (email payload) (id payload) (x_permission_level payload).

(** A user with another permission level. *)
Definition withLevel (u : User) (level : Z) : User :=
  mkUser (username u) (firstName u) (lastName u) (u_email u) (u_id u) level.

(** The level [a | b | ...] assembled from flags. *)
Definition levelOf (flags : list Flag) : Z :=
  fold_right (fun f acc => Z.lor (flagValue f) acc) 0 flags.

Definition flagEqb (f g : Flag) : bool :=
  match f, g with
  | READ, READ | CREATE, CREATE | UPDATE, UPDATE | DELETE, DELETE => true
  | _, _ => false
  end.

(** The same request under another Authorization header. *)
Definition withAuthorization (req : Request) (header : option string)
    : Request :=
  mkRequest header (user req) (params_id req) (fridgeId req) (body req).

(** The same endpoint called with another request. *)
Definition withRequest (ep : Endpoint) (req : Request) : Endpoint :=
  match ep with
  | GET_fridge _ => GET_fridge req
  | GET_fridge_cleanout currentDate => GET_fridge_cleanout currentDate
  | POST_fridge _ => POST_fridge req
  | GET_fridge_id _ => GET_fridge_id req
  | PUT_fridge_id _ => PUT_fridge_id req
  | PATCH_fridge_id _ => PATCH_fridge_id req
  | DELETE_fridge_id _ => DELETE_fridge_id req
  | POST_fridge_id_webhook _ => POST_fridge_id_webhook req
  | GET_product _ => GET_product req
  | POST_product _ => POST_product req
  | GET_product_id _ => GET_product_id req
  | PUT_product_id _ => PUT_product_id req
  | PATCH_product_id _ => PATCH_product_id req
  | DELETE_product_id _ => DELETE_product_id req
  end.

(* ===================================================================== *)
(** * Properties                                                          *)
(* ===================================================================== *)

(** ** The capability gate *)

Section CapabilityGate.

Lemma ToInt32_testbit (m i : Z) :
  0 <= i < 32 -> Z.testbit (JS.ToInt32 m) i = Z.testbit m i.
Proof.
  intros Hi. unfold JS.ToInt32.
  rewrite <- (Z.mod_pow2_bits_low _ 32 i) by lia.
  rewrite Zminus_mod_idemp_l.
  replace (m + 2 ^ 31 - 2 ^ 31) with m by lia.
  apply Z.mod_pow2_bits_low. lia.
Qed.

Lemma ToInt32_small (r : Z) : 0 <= r < 2 ^ 31 -> JS.ToInt32 r = r.
Proof.
  intros Hr. unfold JS.ToInt32. rewrite Z.mod_small; lia.
Qed.

(** For a right operand below 2^31 the wrap-around of [&] is invisible. *)
Lemma bitand_small (m r : Z) :
  0 <= r < 2 ^ 31 -> JS.bitand m r = Z.land m r.
Proof.
  intros Hr. unfold JS.bitand. rewrite (ToInt32_small r Hr).
  apply Z.bits_inj'. intros i Hi.
  rewrite !Z.land_spec.
  destruct (Z_lt_ge_dec i 32) as [Hlt | Hge].
  - rewrite ToInt32_testbit by lia. reflexivity.
  - assert (Hbit : Z.testbit r i = false).
    { rewrite <- (Z.mod_small r (2 ^ 32)) by lia.
      apply Z.mod_pow2_bits_high. lia. }
    rewrite Hbit, !andb_false_r. reflexivity.
Qed.

Lemma flagValue_range (f : Flag) : 0 <= flagValue f < 2 ^ 31.
Proof. destruct f; cbv; split; congruence. Qed.

Lemma hasPermission_land (req : Request) (u : User) (required : Z) :
  0 <= required < 2 ^ 31 ->
  hasPermission (setUser req u) required =
  if Z.land (permissionLevel u) required =? 0
  then NextErr (createError 403) else Next.
Proof.
  intros Hr. unfold hasPermission, userPermissionLevel, JS.truthy_num. simpl.
  change (Z.land (JS.ToInt32 (permissionLevel u)) (JS.ToInt32 required))
    with (JS.bitand (permissionLevel u) required).
  rewrite bitand_small by exact Hr.
  destruct (Z.land (permissionLevel u) required =? 0); reflexivity.
Qed.

(** C3. For every capability bitmask and every single required flag the
    gate calls [next()] exactly when [mask & required] is not 0 and hands
    [createError(403)] to [next] otherwise, which the client sees as a 403;
    mask 1 with DELETE (8) is denied, mask 15 with DELETE is granted. *)
Theorem hasPermission_iff_bit :
  forall (req : Request) (u : User) (required : Flag),
    (hasPermission (setUser req u) (flagValue required) = Next
       <-> Z.land (permissionLevel u) (flagValue required) <> 0)
    /\ (hasPermission (setUser req u) (flagValue required)
          = NextErr (createError 403)
        <-> Z.land (permissionLevel u) (flagValue required) = 0)
    /\ clientStatus (NextErr (createError 403)) = Some 403
    /\ (forall un fn ln em i,
          hasPermission (setUser req (mkUser un fn ln em i 1))
                        PermissionLevels.DELETE
          = NextErr (createError 403))
    /\ (forall un fn ln em i,
          hasPermission (setUser req (mkUser un fn ln em i 15))
                        PermissionLevels.DELETE
          = Next).
Proof.
  intros req u required.
  pose proof (hasPermission_land req u (flagValue required)
                (flagValue_range required)) as Hgate.
  repeat split.
  - intros Hnext Hzero. rewrite Hgate, Hzero in Hnext. discriminate.
  - intros Hne. rewrite Hgate.
    destruct (Z.eqb_spec (Z.land (permissionLevel u) (flagValue required)) 0);
      [contradiction | reflexivity].
  - intros Hdeny. rewrite Hgate in Hdeny.
    destruct (Z.eqb_spec (Z.land (permissionLevel u) (flagValue required)) 0);
      [assumption | discriminate].
  - intros Hzero. rewrite Hgate, Hzero. reflexivity.
Qed.

End CapabilityGate.

(** ** The token verifier *)

Section TokenVerifier.
Context `{Runtime}.

Lemma split_no_separator (sep : ascii) (s : string) :
  JS.mem sep s = false -> JS.split sep s = [s].
Proof.
  induction s as [| c s IH]; simpl; intros Hmem.
  - reflexivity.
  - apply orb_false_elim in Hmem. destruct Hmem as [Hc Hs].
    rewrite Hc, (IH Hs). reflexivity.
Qed.

Lemma split_Bearer (token : string) :
  JS.mem " " token = false ->
  JS.split " " ("Bearer " ++ token)%string = ["Bearer"; token].
Proof.
  intros Hmem. simpl. rewrite (split_no_separator _ _ Hmem). reflexivity.
Qed.

Lemma authenticateJWT_try_header (req : Request) (header : string) :
  authorization req = Some header ->
  authenticateJWT_try req =
  if match schemeOf header with
     | Some scheme => negb (scheme =? "Bearer")%string
     | None => true
     end
  then inr (Error "Invalid authentication scheme.")
  else
    match jwt_verify (tokenOf header) with
    | Some payload =>
        inl (setUser req
               (mkUser (sub payload) (given_name payload)
                       (family_name payload) (email payload)
                       (id payload) (x_permission_level payload)))
    | None => inr JsonWebTokenError
    end.
Proof.
  intros Hh. unfold authenticateJWT_try, schemeOf, tokenOf. rewrite Hh.
  reflexivity.
Qed.

(** C4. authenticateJWT hands a 401 to [next] exactly when the header is
    missing, or its first space-separated piece is not Bearer, or
    [jwt.verify] rejects its second piece; then it leaves the request as
    it was.  In every other case the header's scheme is Bearer, its token
    verifies, and authenticateJWT calls [next()] on the request whose
    [user] now holds the token's six claims, sub as username, given_name
    as firstName, family_name as lastName, email, id, and
    x_permission_level as permissionLevel, and whose other properties are
    as before.  In particular a token that verifies, sent as Bearer
    followed by one space and the token, is accepted with [req.user]
    reproducing its claims. *)
Theorem authenticateJWT_spec :
  forall req : Request,
    ((exists cause,
         snd (authenticateJWT req) = NextErr (HttpError 401 None (Some cause)))
     <-> (authorization req = None
          \/ (exists header, authorization req = Some header
                             /\ schemeOf header <> Some "Bearer")
          \/ (exists header, authorization req = Some header
                             /\ jwt_verify (tokenOf header) = None)))
    /\ ((exists cause,
           authenticateJWT req
           = (req, NextErr (HttpError 401 None (Some cause))))
        \/ (exists header payload,
              authorization req = Some header
              /\ schemeOf header = Some "Bearer"
              /\ jwt_verify (tokenOf header) = Some payload
              /\ authenticateJWT req
                 = (mkRequest (authorization req)
                      (Some (mkUser (sub payload) (given_name payload)
                                    (family_name payload) (email payload)
                                    (id payload)
                                    (x_permission_level payload)))
                      (params_id req) (fridgeId req) (body req),
                    Next)))
    /\ (forall cause,
          clientStatus (NextErr (HttpError 401 None (Some cause))) = Some 401)
    /\ (forall token payload,
          authorization req = Some ("Bearer " ++ token)%string ->
          JS.mem " " token = false ->
          jwt_verify (Some token) = Some payload ->
          authenticateJWT req
          = (mkRequest (authorization req)
               (Some (mkUser (sub payload) (given_name payload)
                             (family_name payload) (email payload)
                             (id payload) (x_permission_level payload)))
               (params_id req) (fridgeId req) (body req),
             Next)
          /\ user (fst (authenticateJWT req))
             = Some (mkUser (sub payload) (given_name payload)
                            (family_name payload) (email payload)
                            (id payload) (x_permission_level payload))
          /\ snd (authenticateJWT req) = Next).
Proof.
  intros req. unfold authenticateJWT.
  destruct (authorization req) as [header |] eqn:Hauth.
  - rewrite (authenticateJWT_try_header req header Hauth).
    unfold setUser. rewrite Hauth.
    destruct (schemeOf header) as [scheme |] eqn:Hs;
      [destruct (String.eqb_spec scheme "Bearer") as [-> | Hne] |];
      cbn [negb fst snd].
    + (* scheme is Bearer *)
      destruct (jwt_verify (tokenOf header)) as [payload |] eqn:Hv;
        cbn [fst snd].
      * split; [| split; [| split]].
        -- split.
           ++ intros [cause Hc]. discriminate.
           ++ intros [Hnone | [[h [Hh Hbad]] | [h [Hh Hbad]]]];
                [discriminate | injection Hh as <-; congruence
                | injection Hh as <-; congruence].
        -- right. exists header, payload.
           split; [reflexivity |]. split; [exact Hs |].
           split; [exact Hv | reflexivity].
        -- intros cause. reflexivity.
        -- intros token payload' Hh Hmem Hv'. injection Hh as ->.
           unfold tokenOf in Hv.
           pose proof (split_Bearer token Hmem) as Hsp.
           cbn [append] in Hsp. rewrite Hsp in Hv.
           cbn [nth_error] in Hv. rewrite Hv' in Hv. injection Hv as <-.
           split; [reflexivity |]. split; reflexivity.
      * split; [| split; [| split]].
        -- split.
           ++ intros _. right. right. exists header.
              split; [reflexivity | assumption].
           ++ intros _. eexists; reflexivity.
        -- left. eexists; reflexivity.
        -- intros cause. reflexivity.
        -- intros token payload' Hh Hmem Hv'. injection Hh as ->.
           unfold tokenOf in Hv.
           pose proof (split_Bearer token Hmem) as Hsp.
           cbn [append] in Hsp. rewrite Hsp in Hv.
           cbn [nth_error] in Hv. congruence.
    + (* another scheme *)
      split; [| split; [| split]].
      * split.
        -- intros _. right. left. exists header. split; congruence.
        -- intros _. eexists; reflexivity.
      * left. eexists; reflexivity.
      * intros cause. reflexivity.
      * intros token payload Hh Hmem Hv. injection Hh as ->.
        unfold schemeOf in Hs.
        pose proof (split_Bearer token Hmem) as Hsp.
        cbn [append] in Hsp. rewrite Hsp in Hs.
        cbn [nth_error] in Hs. congruence.
    + (* no first piece *)
      split; [| split; [| split]].
      * split.
        -- intros _. right. left. exists header. split; congruence.
        -- intros _. eexists; reflexivity.
      * left. eexists; reflexivity.
      * intros cause. reflexivity.
      * intros token payload Hh Hmem Hv. injection Hh as ->.
        unfold schemeOf in Hs.
        pose proof (split_Bearer token Hmem) as Hsp.
        cbn [append] in Hsp. rewrite Hsp in Hs.
        cbn [nth_error] in Hs. congruence.
  - unfold authenticateJWT_try. rewrite Hauth.
    split; [| split; [| split]].
    + split.
      * intros _. left. reflexivity.
      * intros _. eexists; reflexivity.
    + left. eexists; reflexivity.
    + intros cause. reflexivity.
    + intros token payload Hh. discriminate.
Qed.

End TokenVerifier.

(** ** The expiration scanner *)

Ltac step_m :=
  unfold Mongoose.Product_findByOid, Mongoose.Fridge_find_webhook,
    bind, ret, throw, getStore; cbn [fst snd].

Section Scanner.

Lemma scanProducts_intact (date : Date) (w : World) :
  forall (ids : list ObjectId) (acc : list Product),
    forallb (fun oid => match lookupProduct (db w) oid with
                        | Some _ => true
                        | None => false
                        end) ids = true ->
    WebhookService.scanProducts date ids acc w
    = (w, Ok (acc ++ filter (expired date) (resolve (db w) ids))).
Proof.
  induction ids as [| oid ids IH]; intros acc Hall; cbn [WebhookService.scanProducts].
  - step_m. cbn. rewrite app_nil_r. reflexivity.
  - cbn [forallb] in Hall. apply andb_true_iff in Hall.
    destruct Hall as [Hone Hrest].
    step_m. cbn [resolve]. unfold lookupProduct in *.
    destruct (find (Mongoose.hasPid oid) (products (db w))) as [p |];
      [| discriminate].
    cbn [filter]. unfold expired at 1.
    destruct (p_expirationDate p <? date).
    + rewrite (IH _ Hrest), <- app_assoc. reflexivity.
    + apply (IH _ Hrest).
Qed.

Lemma scanProducts_dangling (date : Date) (w : World) :
  forall (ids : list ObjectId) (acc : list Product),
    forallb (fun oid => match lookupProduct (db w) oid with
                        | Some _ => true
                        | None => false
                        end) ids = false ->
    exists msg,
      WebhookService.scanProducts date ids acc w = (w, Throw (TypeError msg)).
Proof.
  induction ids as [| oid ids IH]; intros acc Hall; cbn [WebhookService.scanProducts].
  - discriminate.
  - cbn [forallb] in Hall. step_m. unfold lookupProduct in *.
    destruct (find (Mongoose.hasPid oid) (products (db w))) as [p |].
    + cbn [andb] in Hall. destruct (p_expirationDate p <? date); apply IH, Hall.
    + eexists; reflexivity.
Qed.

(** The scan never touches the world, whatever it returns or throws. *)
Lemma scanProducts_world (date : Date) (w : World) :
  forall (ids : list ObjectId) (acc : list Product),
    fst (WebhookService.scanProducts date ids acc w) = w.
Proof.
  induction ids as [| oid ids IH]; intros acc; cbn [WebhookService.scanProducts].
  - reflexivity.
  - step_m.
    destruct (find (Mongoose.hasPid oid) (products (db w))) as [p |];
      [| reflexivity].
    destruct (p_expirationDate p <? date); apply IH.
Qed.

Lemma scanFridges_world (date : Date) (w : World) :
  forall fs : list Fridge, fst (WebhookService.scanFridges date fs w) = w.
Proof.
  induction fs as [| f fs IH]; cbn [WebhookService.scanFridges].
  - reflexivity.
  - unfold bind at 1.
    destruct ((0 <? List.length (f_products f))%nat).
    + pose proof (scanProducts_world date w (f_products f) []) as Hw.
      destruct (WebhookService.scanProducts date (f_products f) [] w)
        as [w1 [exp1 | e1]]; cbn [fst] in Hw; subst w1; [| reflexivity].
      unfold bind at 1.
      destruct (WebhookService.scanFridges date fs w) as [w2 [r2 | e2]];
        cbn [fst] in IH; subst w2; reflexivity.
    + unfold ret at 1. unfold bind at 1.
      destruct (WebhookService.scanFridges date fs w) as [w2 [r2 | e2]];
        cbn [fst] in IH; subst w2; reflexivity.
Qed.

Lemma checkFridges_world (date : Date) (w : World) :
  fst (WebhookService.checkFridges date w) = w.
Proof.
  unfold WebhookService.checkFridges. step_m. apply scanFridges_world.
Qed.

(** The scan reads the collections and nothing else of the world. *)
Lemma scanProducts_db (date : Date) (w1 w2 : World) :
  db w1 = db w2 ->
  forall (ids : list ObjectId) (acc : list Product),
    snd (WebhookService.scanProducts date ids acc w1)
    = snd (WebhookService.scanProducts date ids acc w2).
Proof.
  intros Hdb.
  induction ids as [| oid ids IH]; intros acc; cbn [WebhookService.scanProducts].
  - reflexivity.
  - step_m. rewrite Hdb.
    destruct (find (Mongoose.hasPid oid) (products (db w2))) as [p |];
      [| reflexivity].
    destruct (p_expirationDate p <? date); apply IH.
Qed.

Lemma scanFridges_db (date : Date) (w1 w2 : World) :
  db w1 = db w2 ->
  forall fs : list Fridge,
    snd (WebhookService.scanFridges date fs w1)
    = snd (WebhookService.scanFridges date fs w2).
Proof.
  intros Hdb.
  induction fs as [| f fs IH]; cbn [WebhookService.scanFridges].
  - reflexivity.
  - unfold bind at 1 3.
    pose proof (scanFridges_world date w1 fs) as Hw1.
    pose proof (scanFridges_world date w2 fs) as Hw2.
    destruct ((0 <? List.length (f_products f))%nat).
    + pose proof (scanProducts_world date w1 (f_products f) []) as Hp1.
      pose proof (scanProducts_world date w2 (f_products f) []) as Hp2.
      pose proof (scanProducts_db date w1 w2 Hdb (f_products f) []) as Hp.
      destruct (WebhookService.scanProducts date (f_products f) [] w1)
        as [w1' [exp1 | e1]];
      destruct (WebhookService.scanProducts date (f_products f) [] w2)
        as [w2' [exp2 | e2]];
      cbn [fst snd] in *; subst; try discriminate;
        [| injection Hp as ->; reflexivity].
      injection Hp as ->. unfold bind.
      destruct (WebhookService.scanFridges date fs w1) as [u1 [r1 | x1]];
      destruct (WebhookService.scanFridges date fs w2) as [u2 [r2 | x2]];
      cbn [fst snd] in *; subst; try discriminate;
        injection IH as ->; reflexivity.
    + unfold ret at 1 3. unfold bind.
      destruct (WebhookService.scanFridges date fs w1) as [u1 [r1 | x1]];
      destruct (WebhookService.scanFridges date fs w2) as [u2 [r2 | x2]];
      cbn [fst snd] in *; subst; try discriminate;
        injection IH as ->; reflexivity.
Qed.

Lemma checkFridges_db (date : Date) (w1 w2 : World) :
  db w1 = db w2 ->
  snd (WebhookService.checkFridges date w1)
  = snd (WebhookService.checkFridges date w2).
Proof.
  intros Hdb. unfold WebhookService.checkFridges. step_m. rewrite Hdb.
  apply scanFridges_db, Hdb.
Qed.


(** Two reference instants between which no stored product expires give
    the same scan. *)
Lemma scanProducts_instants (date date' : Date) (w : World) :
  (forall p, In p (products (db w)) -> expired date' p = expired date p) ->
  forall (ids : list ObjectId) (acc : list Product),
    WebhookService.scanProducts date' ids acc w
    = WebhookService.scanProducts date ids acc w.
Proof.
  intros Hsame.
  induction ids as [| oid ids IH]; intros acc; cbn [WebhookService.scanProducts].
  - reflexivity.
  - step_m.
    destruct (find (Mongoose.hasPid oid) (products (db w))) as [p |] eqn:Hp;
      [| reflexivity].
    apply find_some in Hp. destruct Hp as [Hin _].
    pose proof (Hsame p Hin) as Hexp. unfold expired in Hexp. rewrite Hexp.
    destruct (p_expirationDate p <? date); apply IH.
Qed.

Lemma scanFridges_instants (date date' : Date) (w : World) :
  (forall p, In p (products (db w)) -> expired date' p = expired date p) ->
  forall fs : list Fridge,
    WebhookService.scanFridges date' fs w
    = WebhookService.scanFridges date fs w.
Proof.
  intros Hsame.
  induction fs as [| f fs IH]; cbn [WebhookService.scanFridges].
  - reflexivity.
  - unfold bind.
    destruct ((0 <? List.length (f_products f))%nat).
    + rewrite (scanProducts_instants date date' w Hsame).
      pose proof (scanProducts_world date w (f_products f) []) as Hw.
      destruct (WebhookService.scanProducts date (f_products f) [] w)
        as [w1 [exp1 | e1]]; cbn [fst] in Hw; subst w1; [| reflexivity].
      rewrite IH. reflexivity.
    + unfold ret at 1 3. rewrite IH. reflexivity.
Qed.

Lemma checkFridges_instants (date date' : Date) (w : World) :
  (forall p, In p (products (db w)) -> expired date' p = expired date p) ->
  WebhookService.checkFridges date' w = WebhookService.checkFridges date w.
Proof.
  intros Hsame. unfold WebhookService.checkFridges. step_m.
  apply (scanFridges_instants date date' w Hsame).
Qed.

Lemma scanFridges_intact (date : Date) (w : World) :
  forall fs : list Fridge,
    forallb (intact (db w)) fs = true ->
    WebhookService.scanFridges date fs w
    = (w, Ok (map (scanned date (db w)) fs)).
Proof.
  induction fs as [| f fs IH]; intros Hall; cbn [WebhookService.scanFridges].
  - reflexivity.
  - cbn [forallb] in Hall. apply andb_true_iff in Hall.
    destruct Hall as [Hf Hfs].
    unfold bind at 1.
    assert (Hexp : (if (0 <? List.length (f_products f))%nat
                    then WebhookService.scanProducts date (f_products f) []
                    else ret []) w
                   = (w, Ok (filter (expired date) (members (db w) f)))).
    { destruct (f_products f) as [| oid ids] eqn:Hids.
      - cbn. unfold members. rewrite Hids. reflexivity.
      - cbn [List.length Nat.ltb Nat.leb].
        rewrite <- Hids. unfold intact in Hf.
        rewrite (scanProducts_intact date w (f_products f) [] Hf).
        reflexivity. }
    rewrite Hexp. unfold bind. rewrite (IH Hfs). reflexivity.
Qed.

Lemma checkFridges_intact (date : Date) (w : World) :
  forallb (intact (db w)) (monitored (db w)) = true ->
  WebhookService.checkFridges date w
  = (w, Ok (map (scanned date (db w)) (monitored (db w)))).
Proof.
  intros Hall. unfold WebhookService.checkFridges. step_m.
  apply (scanFridges_intact date w _ Hall).
Qed.

Lemma scanFridges_dangling (date : Date) (w : World) :
  forall fs : list Fridge,
    forallb (intact (db w)) fs = false ->
    exists msg,
      WebhookService.scanFridges date fs w = (w, Throw (TypeError msg)).
Proof.
  induction fs as [| f fs IH]; intros Hall; cbn [WebhookService.scanFridges].
  - discriminate.
  - cbn [forallb] in Hall. unfold bind at 1.
    destruct (intact (db w) f) eqn:Hf.
    + cbn [andb] in Hall.
      assert (Hexp : (if (0 <? List.length (f_products f))%nat
                      then WebhookService.scanProducts date (f_products f) []
                      else ret []) w
                     = (w, Ok (filter (expired date) (members (db w) f)))).
      { destruct (f_products f) as [| oid ids] eqn:Hids.
        - cbn. unfold members. rewrite Hids. reflexivity.
        - cbn [List.length Nat.ltb Nat.leb].
          rewrite <- Hids. unfold intact in Hf.
          rewrite (scanProducts_intact date w (f_products f) [] Hf).
          reflexivity. }
      rewrite Hexp. unfold bind.
      destruct (IH Hall) as [msg Hmsg]. rewrite Hmsg.
      exists msg. reflexivity.
    + unfold intact in Hf.
      destruct (f_products f) as [| oid ids] eqn:Hids; [discriminate |].
      cbn [List.length Nat.ltb Nat.leb]. rewrite <- Hids in *.
      destruct (scanProducts_dangling date w (f_products f) [] Hf)
        as [msg Hmsg].
      rewrite Hmsg. exists msg. reflexivity.
Qed.

(** A dangling reference in any monitored fridge fails the whole scan. *)
Lemma checkFridges_dangling (date : Date) (w : World) :
  forallb (intact (db w)) (monitored (db w)) = false ->
  exists msg,
    WebhookService.checkFridges date w = (w, Throw (TypeError msg)).
Proof.
  intros Hall. unfold WebhookService.checkFridges. step_m.
  apply (scanFridges_dangling date w _ Hall).
Qed.

(** The scan returns exactly when no reference of a monitored fridge
    dangles. *)
Lemma checkFridges_returns_iff_intact (date : Date) (w : World) :
  (exists res, snd (WebhookService.checkFridges date w) = Ok res)
  <-> forallb (intact (db w)) (monitored (db w)) = true.
Proof.
  split.
  - intros [res Hres].
    destruct (forallb (intact (db w)) (monitored (db w))) eqn:Hall;
      [reflexivity |].
    destruct (checkFridges_dangling date w Hall) as [msg Hmsg].
    rewrite Hmsg in Hres. discriminate.
  - intros Hall. rewrite (checkFridges_intact date w Hall).
    eexists; reflexivity.
Qed.

(** One dangling reference in the attic, and the garage's expired ham is
    not reported either. *)
Example checkFridges_attic :
  members (db Sample.dangling) Sample.garage = [Sample.ham]
  /\ expired Sample.today Sample.ham = true
  /\ WebhookService.checkFridges Sample.today Sample.dangling
     = (Sample.dangling,
        Throw (TypeError
                 "Cannot read properties of null (reading 'expirationDate')")).
Proof. repeat split. Qed.

End Scanner.

(** ** The dispatcher *)

Section Dispatcher.
Context `{Runtime}.

Lemma dispatch_answered :
  forall (fs : list ScannedFridge) (w : World),
    answered (List.length (sent w)) (map webhookCall fs) = true ->
    FridgeController.dispatch fs w
    = (mkWorld (db w) (sent w ++ map webhookCall fs) (replied w) (idgen w),
       Ok tt).
Proof.
  induction fs as [| f fs IH]; intros w Hans;
    cbn [FridgeController.dispatch map].
  - unfold ret. rewrite app_nil_r. destruct w; reflexivity.
  - cbn [answered map] in Hans. unfold bind, fetch.
    destruct (fetch_outcome (List.length (sent w)) (webhookCall f))
      as [status |]; [| discriminate].
    assert (Hrest : FridgeController.dispatch fs
                      (mkWorld (db w) (sent w ++ [webhookCall f])
                               (replied w) (idgen w))
                    = (mkWorld (db w) (sent w ++ webhookCall f :: map webhookCall fs)
                               (replied w) (idgen w), Ok tt)).
    { rewrite IH; cbn [db sent replied idgen].
      - rewrite <- app_assoc. reflexivity.
      - rewrite length_app, Nat.add_1_r. exact Hans. }
    destruct (negb (response_ok status)); exact Hrest.
Qed.

Lemma dispatch_refused :
  forall (pre : list ScannedFridge) (f : ScannedFridge)
         (post : list ScannedFridge) (w : World),
    answered (List.length (sent w)) (map webhookCall pre) = true ->
    fetch_outcome (List.length (sent w) + List.length pre) (webhookCall f)
    = Rejected ->
    FridgeController.dispatch (pre ++ f :: post) w
    = (mkWorld (db w) (sent w ++ map webhookCall (pre ++ [f])) (replied w)
               (idgen w),
       Throw FetchFailed).
Proof.
  induction pre as [| g pre IH]; intros f post w Hans Hrej;
    cbn [FridgeController.dispatch map app].
  - unfold bind, fetch. rewrite Nat.add_0_r in Hrej. rewrite Hrej.
    reflexivity.
  - cbn [answered map] in Hans. unfold bind, fetch.
    destruct (fetch_outcome (List.length (sent w)) (webhookCall g))
      as [status |]; [| discriminate].
    assert (Hrest : FridgeController.dispatch (pre ++ f :: post)
                      (mkWorld (db w) (sent w ++ [webhookCall g])
                               (replied w) (idgen w))
                    = (mkWorld (db w)
                         (sent w ++ webhookCall g :: map webhookCall (pre ++ [f]))
                         (replied w) (idgen w), Throw FetchFailed)).
    { rewrite IH; cbn [db sent replied idgen].
      - rewrite <- app_assoc. reflexivity.
      - rewrite length_app, Nat.add_1_r. exact Hans.
      - rewrite length_app, Nat.add_1_r. cbn [List.length] in Hrej.
        rewrite Nat.add_succ_r in Hrej. exact Hrej. }
    destruct (negb (response_ok status)); exact Hrest.
Qed.

(** The loop only ever appends calls for a prefix of its input, and
    leaves the collections and the replies alone. *)
Lemma dispatch_prefix :
  forall (fs : list ScannedFridge) (w : World),
    exists n,
      fst (FridgeController.dispatch fs w)
      = mkWorld (db w) (sent w ++ map webhookCall (firstn n fs)) (replied w)
                (idgen w).
Proof.
  induction fs as [| f fs IH]; intros w; cbn [FridgeController.dispatch].
  - exists 0%nat. cbn. rewrite app_nil_r. destruct w; reflexivity.
  - unfold bind, fetch.
    destruct (fetch_outcome (List.length (sent w)) (webhookCall f))
      as [status |].
    + destruct (IH (mkWorld (db w) (sent w ++ [webhookCall f]) (replied w)
                            (idgen w))) as [n Hn].
      exists (S n). cbn [firstn map].
      cbn [db sent replied idgen] in Hn. rewrite <- app_assoc in Hn.
      destruct (negb (response_ok status)); exact Hn.
    + exists 1%nat. reflexivity.
Qed.

End Dispatcher.

(** ** The cleanout trigger *)

Section CleanOut.
Context `{Runtime}.

Lemma cleanOut_scanned (date : Date) (w : World) (fs : list ScannedFridge) :
  snd (WebhookService.checkFridges date w) = Ok fs ->
  FridgeController.cleanOut date w
  = match FridgeController.dispatch fs w with
    | (w', Ok _) => res_status 204 w'
    | (w', Throw e) => next e w'
    end.
Proof.
  intros Hscan. unfold FridgeController.cleanOut, try_catch, bind.
  pose proof (checkFridges_world date w) as Hw.
  destruct (WebhookService.checkFridges date w) as [w1 r1].
  cbn [fst snd] in *. subst w1 r1.
  destruct (FridgeController.dispatch fs w) as [w2 [[] | e]]; reflexivity.
Qed.

Lemma cleanOut_scan_failed (date : Date) (w : World) (e : Exn) :
  snd (WebhookService.checkFridges date w) = Throw e ->
  FridgeController.cleanOut date w = next e w.
Proof.
  intros Hscan. unfold FridgeController.cleanOut, try_catch, bind.
  pose proof (checkFridges_world date w) as Hw.
  destruct (WebhookService.checkFridges date w) as [w1 r1].
  cbn [fst snd] in *. subst w1 r1. reflexivity.
Qed.

Lemma cleanOut_all_answered (date : Date) (w : World)
    (fs : list ScannedFridge) :
  snd (WebhookService.checkFridges date w) = Ok fs ->
  answered (List.length (sent w)) (map webhookCall fs) = true ->
  FridgeController.cleanOut date w
  = (after w (map webhookCall fs) (Res 204), Ok tt).
Proof.
  intros Hscan Hans.
  rewrite (cleanOut_scanned date w fs Hscan), (dispatch_answered fs w Hans).
  reflexivity.
Qed.

(** The handler writes to neither collection. *)
Lemma cleanOut_db (date : Date) (w : World) :
  db (fst (FridgeController.cleanOut date w)) = db w.
Proof.
  destruct (snd (WebhookService.checkFridges date w)) as [fs | e] eqn:Hscan.
  - rewrite (cleanOut_scanned date w fs Hscan).
    destruct (dispatch_prefix fs w) as [n Hn].
    destruct (FridgeController.dispatch fs w) as [w' [[] | e]];
      cbn [fst] in Hn; subst w'; reflexivity.
  - rewrite (cleanOut_scan_failed date w e Hscan). reflexivity.
Qed.

End CleanOut.

(** C1, on the code. On three targets of which the second refuses the
    connection, the third is never called and the trigger does not answer
    204: the rejected fetch leaves the loop and reaches [next]. *)
Lemma cleanOut_stops_at_refused_call :
  exists fs,
    snd (WebhookService.checkFridges Sample.today Sample.threeTargets) = Ok fs
    /\ List.length fs = 3%nat
    /\ let w' := fst (@FridgeController.cleanOut Sample.secondRefused
                        Sample.today Sample.threeTargets) in
       sent w' = map webhookCall (firstn 2 fs)
       /\ replied w' = [NextErr FetchFailed]
       /\ ~ (sent w' = map webhookCall fs /\ replied w' = [Res 204]).
Proof.
  eexists. split; [vm_compute; reflexivity |].
  split; [reflexivity |].
  vm_compute. repeat split. intros [Hsent _]. discriminate.
Qed.

(** X26. What the loop does on a refused call: when the call to one
    target is refused and the calls before it were answered, the handler
    has attempted exactly the targets up to and including that one, in the
    order of the scan, attempts none of the targets after it, and hands
    the failure to [next]; the client receives a 500 and the collections
    are as they were. *)
Theorem cleanOut_refused `{Runtime} :
  forall (date : Date) (w : World) (pre : list ScannedFridge)
         (f : ScannedFridge) (post : list ScannedFridge),
    snd (WebhookService.checkFridges date w) = Ok (pre ++ f :: post) ->
    answered (List.length (sent w)) (map webhookCall pre) = true ->
    fetch_outcome (List.length (sent w) + List.length pre) (webhookCall f)
    = Rejected ->
    FridgeController.cleanOut date w
    = (after w (map webhookCall (pre ++ [f])) (NextErr FetchFailed), Ok tt)
    /\ clientStatus (NextErr FetchFailed) = Some 500.
Proof.
  intros date w pre f post Hscan Hans Hrej. split; [| reflexivity].
  rewrite (cleanOut_scanned date w _ Hscan),
    (dispatch_refused pre f post w Hans Hrej).
  reflexivity.
Qed.

(** C10. When the scan succeeds and every outbound call resolves to a
    response, the handler calls every target once, in the order of the
    scan, and answers 204; the world it leaves does not depend on the
    status codes: two platforms that differ in nothing but the statuses
    they answer leave the same world. *)
Theorem cleanOut_status_blind :
  forall (R1 R2 : Runtime) (date : Date) (w : World)
         (fs : list ScannedFridge),
    snd (WebhookService.checkFridges date w) = Ok fs ->
    @answered R1 (List.length (sent w)) (map webhookCall fs) = true ->
    @answered R2 (List.length (sent w)) (map webhookCall fs) = true ->
    @FridgeController.cleanOut R1 date w
    = (after w (map webhookCall fs) (Res 204), Ok tt)
    /\ @FridgeController.cleanOut R2 date w
       = @FridgeController.cleanOut R1 date w
    /\ clientStatus (Res 204) = Some 204.
Proof.
  intros R1 R2 date w fs Hscan H1 H2.
  rewrite (@cleanOut_all_answered R1 date w fs Hscan H1),
    (@cleanOut_all_answered R2 date w fs Hscan H2).
  repeat split.
Qed.

(** ** What the scanner returns *)

Lemma reachable_fold `{Runtime} (eps : list Endpoint) :
  forall w : World,
    reachable w -> reachable (fold_left (fun w ep => handle ep w) eps w).
Proof.
  induction eps as [| ep eps IH]; intros w Hw; cbn [fold_left].
  - exact Hw.
  - apply IH, reach_step, Hw.
Qed.

(** C2, on the code. Six requests to the public endpoints leave the second
    fridge, which has a webhook, with the stored product 2 and a reference
    to the deleted product 3.  The scan of that store does not skip the
    reference: it throws a TypeError, returns no expired list for any
    fridge, and the trigger sends nothing and answers 500.  One request
    earlier the same scan returns both products as expired. *)
Theorem checkFridges_aborts_on_dangling_reference :
  @reachable Sample.secondRefused Sample.afterSession
  /\ map f_products (monitored (db Sample.afterSession)) = [[2%N; 3%N]]
  /\ map p_id (products (db Sample.afterSession)) = [2%N]
  /\ snd (WebhookService.checkFridges Sample.tomorrow Sample.afterSession)
     = Throw (TypeError
                "Cannot read properties of null (reading 'expirationDate')")
  /\ (let w' := @handle Sample.secondRefused
                  (GET_fridge_cleanout Sample.tomorrow) Sample.afterSession in
      sent w' = []
      /\ map clientStatus (replied w') = [Some 500])
  /\ (let before := fold_left (fun w ep => @handle Sample.secondRefused ep w)
                      (firstn 5 Sample.session) Sample.empty in
      exists res,
        snd (WebhookService.checkFridges Sample.tomorrow before) = Ok res
        /\ map (fun sf => map p_id (expiredProducts sf)) res = [[2%N; 3%N]]).
Proof.
  split.
  { unfold Sample.afterSession.
    apply (@reachable_fold Sample.secondRefused), reach_init. }
  split; [vm_compute; reflexivity |].
  split; [vm_compute; reflexivity |].
  split; [vm_compute; reflexivity |].
  split; [vm_compute; split; reflexivity |].
  eexists. split; vm_compute; reflexivity.
Qed.

(** C5, on the code. After ten requests to the public endpoints three
    fridges have a webhook: the second lists the stored product 4, which
    has expired by tomorrow; the third lists the deleted product 5; the
    fourth lists nothing.  None of the second fridge's references
    dangles, so its expired members are exactly product 4, and the fourth
    has no members; yet the scan returns no list for either: it throws on
    the third fridge's reference. *)
Theorem checkFridges_no_list_for_intact_fridge :
  @reachable Sample.secondRefused Sample.afterLongSession
  /\ map f_products (monitored (db Sample.afterLongSession))
     = [[4%N]; [5%N]; []]
  /\ map p_id (products (db Sample.afterLongSession)) = [4%N]
  /\ map (intact (db Sample.afterLongSession))
         (monitored (db Sample.afterLongSession))
     = [true; false; true]
  /\ map (fun f => map p_id
                     (filter (expired Sample.tomorrow)
                             (members (db Sample.afterLongSession) f)))
         (monitored (db Sample.afterLongSession))
     = [[4%N]; []; []]
  /\ snd (WebhookService.checkFridges Sample.tomorrow
            Sample.afterLongSession)
     = Throw (TypeError
                "Cannot read properties of null (reading 'expirationDate')")
  /\ ~ exists res,
        snd (WebhookService.checkFridges Sample.tomorrow
               Sample.afterLongSession) = Ok res.
Proof.
  split.
  { unfold Sample.afterLongSession.
    apply (@reachable_fold Sample.secondRefused), reach_init. }
  split; [vm_compute; reflexivity |].
  split; [vm_compute; reflexivity |].
  split; [vm_compute; reflexivity |].
  split; [vm_compute; reflexivity |].
  split; [vm_compute; reflexivity |].
  intros [res Hres]. vm_compute in Hres. discriminate.
Qed.

(** X25. When no reference of a monitored fridge dangles, the scan returns,
    for each fridge with a webhook and in the order of the collection, the
    fridge together with exactly those of its members whose expirationDate
    is strictly before the reference instant, in the order of
    [fridge.products]; a fridge with no members comes with the empty
    list. *)
Theorem checkFridges_expired :
  forall (date : Date) (w : World),
    forallb (intact (db w)) (monitored (db w)) = true ->
    exists res,
      WebhookService.checkFridges date w = (w, Ok res)
      /\ map doc res = monitored (db w)
      /\ forall sf,
           In sf res ->
           expiredProducts sf
           = filter (expired date) (members (db w) (doc sf))
           /\ (forall p,
                 In p (expiredProducts sf)
                 <-> In p (members (db w) (doc sf))
                     /\ p_expirationDate p < date)
           /\ (f_products (doc sf) = [] -> expiredProducts sf = []).
Proof.
  intros date w Hall.
  exists (map (scanned date (db w)) (monitored (db w))).
  split; [apply checkFridges_intact, Hall |].
  split.
  - rewrite map_map. cbn [scanned doc]. apply map_id.
  - intros sf Hin. apply in_map_iff in Hin.
    destruct Hin as [f [<- _]]. cbn [scanned doc expiredProducts].
    split; [reflexivity |]. split.
    + intros p. rewrite filter_In. unfold expired.
      rewrite Z.ltb_lt. reflexivity.
    + intros Hnone. unfold members. rewrite Hnone. reflexivity.
Qed.

(** The specification's example: of a product that expired yesterday and
    one that expires tomorrow, the scan of today returns the first. *)
Example checkFridges_yesterday_tomorrow :
  let w := mkWorld (mkStore [Sample.kitchen] [Sample.milk; Sample.eggs])
                   [] [] 0%N in
  WebhookService.checkFridges Sample.today w
  = (w, Ok [mkScanned Sample.kitchen [Sample.milk]]).
Proof. vm_compute. reflexivity. Qed.

(** C7. The scan leaves the world as it found it, the two collections in
    particular, whether it returns or throws; and a whole cleanout cycle,
    dispatch included, leaves the two collections as it found them. *)
Theorem checkFridges_no_writes :
  forall (date : Date) (w : World),
    fst (WebhookService.checkFridges date w) = w
    /\ db (fst (WebhookService.checkFridges date w)) = db w
    /\ forall R : Runtime,
         db (fst (@FridgeController.cleanOut R date w)) = db w.
Proof.
  intros date w. rewrite checkFridges_world.
  repeat split. intros R. apply cleanOut_db.
Qed.

(** C8. A second scan at the same reference instant, run in the world the
    first one left, returns what the first returned; so does a scan run
    after a whole cleanout cycle, and in general in any world with the
    same two collections; a scan at another instant returns the same as
    long as no stored product expires between the two instants. *)
Theorem checkFridges_repeatable :
  forall (date : Date) (w : World),
    (let first := WebhookService.checkFridges date w in
     let second := WebhookService.checkFridges date (fst first) in
     snd second = snd first)
    /\ (forall (R : Runtime) (date' : Date),
          snd (WebhookService.checkFridges date
                 (fst (@FridgeController.cleanOut R date' w)))
          = snd (WebhookService.checkFridges date w))
    /\ (forall w' : World,
          db w' = db w ->
          snd (WebhookService.checkFridges date w')
          = snd (WebhookService.checkFridges date w))
    /\ (forall date' : Date,
          (forall p, In p (products (db w)) ->
                     expired date' p = expired date p) ->
          WebhookService.checkFridges date' w
          = WebhookService.checkFridges date w).
Proof.
  intros date w. split; [| split; [| split]].
  - cbv zeta. rewrite checkFridges_world. reflexivity.
  - intros R date'. apply checkFridges_db, cleanOut_db.
  - intros w' Hdb. apply checkFridges_db, Hdb.
  - intros date' Hsame. apply checkFridges_instants, Hsame.
Qed.

(** ** Webhook registration *)

Section Registration.
Context `{Runtime}.

(** C6. For a fridge that exists and a body in which webhookUrl or
    webhookSecret is missing (absent or empty), registerWebhook hands
    [createError(400, ...)] to [next], which the client sees as a 400,
    and writes nothing: both collections are as they were, so the fridge
    is still stored with the target it had. *)
Theorem registerWebhook_missing_field :
  forall (req : Request) (w : World) (oid : ObjectId) (fridge : Fridge),
    castObjectId (params_id req) = Some oid ->
    find (Mongoose.hasId oid) (fridges (db w)) = Some fridge ->
    JS.truthy (b_webhookUrl (body req)) = false
    \/ JS.truthy (b_webhookSecret (body req)) = false ->
    let w' := fst (FridgeController.registerWebhook req w) in
    replied w'
    = replied w
      ++ [NextErr (createErrorMsg 400
                     "Bad request: Missing webhookUrl or webhookSecret.")]
    /\ clientStatus
         (NextErr (createErrorMsg 400
                     "Bad request: Missing webhookUrl or webhookSecret."))
       = Some 400
    /\ db w' = db w
    /\ sent w' = sent w
    /\ find (Mongoose.hasId oid) (fridges (db w')) = Some fridge.
Proof.
  intros req w oid fridge Hcast Hfind Hmissing.
  unfold FridgeController.registerWebhook, try_catch, bind,
    Mongoose.Fridge_findById, Mongoose.castId, Mongoose.Fridge_findByOid,
    bind, ret, getStore.
  rewrite Hcast. cbn [fst snd]. rewrite Hfind.
  assert (Hguard : negb (JS.truthy (b_webhookUrl (body req)))
                   || negb (JS.truthy (b_webhookSecret (body req))) = true).
  { destruct Hmissing as [-> | ->]; [reflexivity | apply orb_true_r]. }
  rewrite Hguard. cbn. repeat split. exact Hfind.
Qed.

(** Whatever the request, a body that misses a field leaves both
    collections as they were. *)
Lemma registerWebhook_missing_field_db (req : Request) (w : World) :
  JS.truthy (b_webhookUrl (body req)) = false
  \/ JS.truthy (b_webhookSecret (body req)) = false ->
  db (fst (FridgeController.registerWebhook req w)) = db w.
Proof.
  intros Hmissing.
  assert (Hguard : negb (JS.truthy (b_webhookUrl (body req)))
                   || negb (JS.truthy (b_webhookSecret (body req))) = true).
  { destruct Hmissing as [-> | ->]; [reflexivity | apply orb_true_r]. }
  unfold FridgeController.registerWebhook, try_catch, bind,
    Mongoose.Fridge_findById, Mongoose.castId, Mongoose.Fridge_findByOid,
    bind, ret, throw, getStore.
  destruct (castObjectId (params_id req)) as [oid |]; cbn [fst snd];
    [| reflexivity].
  destruct (find (Mongoose.hasId oid) (fridges (db w))) as [fridge |];
    [| reflexivity].
  rewrite Hguard. reflexivity.
Qed.

End Registration.

(** ** An invariant of the fridge collection

    [keeps m Q]: handler code [m] preserves "every stored fridge satisfies
    [phi]", whether it returns or throws, and what it returns satisfies
    [Q].  [phi] may be any property of a fridge that looks only at its id
    and its target and that a fridge without a target has. *)

Section FridgeInvariant.
Context `{Runtime}.
Variable phi : Fridge -> Prop.
Hypothesis phi_ext :
  forall f f',
    f_id f' = f_id f ->
    f_webhookUrl f' = f_webhookUrl f ->
    f_webhookSecret f' = f_webhookSecret f ->
    phi f -> phi f'.
Hypothesis phi_new :
  forall f, f_webhookUrl f = None -> f_webhookSecret f = None -> phi f.

Local Abbreviation Inv := (Inv phi).
Local Abbreviation keeps := (keeps phi).





Lemma keeps_weaken {A} (m : M A) (Q Q' : A -> Prop) :
  keeps m Q -> (forall a, Q a -> Q' a) -> keeps m Q'.
Proof.
  intros Hm Hq w Hw. destruct (Hm w Hw) as [Hw1 Ha].
  split; [exact Hw1 |]. intros a Heq. apply Hq, Ha, Heq.
Qed.



























(** *** The handlers *)




















(** *** The routes *)







End FridgeInvariant.

(** ** Url and secret go together *)

Section Target.
Context `{Runtime}.










End Target.

(** ** The theorems at the sample data *)

Lemma cleanOut_refused_witness :
  snd (WebhookService.checkFridges Sample.today Sample.threeTargets)
  = Ok ([Sample.kitchenScanned] ++ Sample.cellarScanned
                                :: [Sample.garageScanned])
  /\ @FridgeController.cleanOut Sample.secondRefused Sample.today
       Sample.threeTargets
     = (after Sample.threeTargets
          (map webhookCall [Sample.kitchenScanned; Sample.cellarScanned])
          (NextErr FetchFailed), Ok tt).
Proof.
  split; [reflexivity |].
  apply (@cleanOut_refused Sample.secondRefused Sample.today
           Sample.threeTargets [Sample.kitchenScanned] Sample.cellarScanned
           [Sample.garageScanned]); reflexivity.
Defined.

Lemma authenticateJWT_spec_witness :
  user (fst (@authenticateJWT Sample.secondRefused
               (Sample.request "1" EmptyString Sample.emptyBody)))
  = Some (mkUser "alice" "Alice" "Andersson" "alice@example.org" "7" 1)
  /\ snd (@authenticateJWT Sample.secondRefused
            (Sample.request "1" EmptyString Sample.emptyBody))
     = Next.
Proof.
  destruct (proj2 (proj2 (proj2
              (@authenticateJWT_spec Sample.secondRefused
                 (Sample.request "1" EmptyString Sample.emptyBody))))
              "good" Sample.alice eq_refl eq_refl eq_refl)
    as [_ [Huser Hnext]].
  split; [exact Huser | exact Hnext].
Defined.

Lemma checkFridges_expired_witness :
  forallb (intact (db Sample.threeTargets)) (monitored (db Sample.threeTargets))
  = true
  /\ exists res,
       WebhookService.checkFridges Sample.today Sample.threeTargets
       = (Sample.threeTargets, Ok res)
       /\ map doc res = monitored (db Sample.threeTargets)
       /\ forall sf,
            In sf res ->
            expiredProducts sf
            = filter (expired Sample.today)
                     (members (db Sample.threeTargets) (doc sf))
            /\ (forall p,
                  In p (expiredProducts sf)
                  <-> In p (members (db Sample.threeTargets) (doc sf))
                      /\ p_expirationDate p < Sample.today)
            /\ (f_products (doc sf) = [] -> expiredProducts sf = []).
Proof.
  split; [reflexivity |].
  apply (checkFridges_expired Sample.today Sample.threeTargets).
  reflexivity.
Defined.

Lemma registerWebhook_missing_field_witness :
  let w' := fst (@FridgeController.registerWebhook Sample.secondRefused
                   Sample.noSecret Sample.threeTargets) in
  replied w'
  = [NextErr (createErrorMsg 400
                "Bad request: Missing webhookUrl or webhookSecret.")]
  /\ f_webhookUrl Sample.kitchen = Some "http://a.example/hook"
  /\ find (Mongoose.hasId 1%N) (fridges (db w')) = Some Sample.kitchen.
Proof.
  destruct (@registerWebhook_missing_field Sample.secondRefused
              Sample.noSecret Sample.threeTargets 1%N Sample.kitchen
              eq_refl eq_refl (or_intror eq_refl))
    as [Hreplied [_ [_ [_ Hfind]]]].
  cbv zeta. split; [exact Hreplied |]. split; [reflexivity | exact Hfind].
Defined.

Lemma checkFridges_repeatable_witness :
  snd (WebhookService.checkFridges Sample.today
         (fst (@FridgeController.cleanOut Sample.secondRefused Sample.today
                 Sample.threeTargets)))
  = snd (WebhookService.checkFridges Sample.today Sample.threeTargets).
Proof.
  apply (proj1 (proj2 (proj2 (checkFridges_repeatable Sample.today
                                Sample.threeTargets)))).
  reflexivity.
Defined.


Lemma cleanOut_status_blind_witness :
  @FridgeController.cleanOut Sample.allAnswer Sample.today Sample.threeTargets
  = (after Sample.threeTargets
       (map webhookCall
          [Sample.kitchenScanned; Sample.cellarScanned; Sample.garageScanned])
       (Res 204), Ok tt)
  /\ @FridgeController.cleanOut Sample.allFine Sample.today Sample.threeTargets
     = @FridgeController.cleanOut Sample.allAnswer Sample.today
         Sample.threeTargets.
Proof.
  destruct (cleanOut_status_blind Sample.allAnswer Sample.allFine
              Sample.today Sample.threeTargets
              [Sample.kitchenScanned; Sample.cellarScanned;
               Sample.garageScanned] eq_refl eq_refl eq_refl)
    as [Hfirst [Hsame _]].
  split; [exact Hfirst | exact Hsame].
Defined.

(* ===================================================================== *)
(** * Further properties of the handlers                                  *)
(* ===================================================================== *)

Ltac run_m :=
  unfold try_catch, bind, ret, throw, getStore, putStore, next, res_status,
    reply, newObjectId, catchObjectId, when_,
    Mongoose.Fridge_findById, Mongoose.Product_findById, Mongoose.castId,
    Mongoose.Fridge_findByOid, Mongoose.Product_findByOid,
    Mongoose.Fridge_findOne_name, Mongoose.Fridge_insert,
    Mongoose.Fridge_save, Mongoose.Fridge_deleteOne,
    Mongoose.Product_insert, Mongoose.Product_save,
    Mongoose.Product_deleteOne, bind, ret, throw, getStore, putStore;
  cbn [fst snd db sent replied idgen fridges products kindIsObjectId].

Lemma find_app_last {A} (sel : A -> bool) (l : list A) (a : A) :
  find sel l = None -> sel a = true -> find sel (l ++ [a]) = Some a.
Proof.
  induction l as [| x l IH]; cbn [find app]; intros Hnone Ha.
  - rewrite Ha. reflexivity.
  - destruct (sel x); [discriminate | apply IH; assumption].
Qed.

Lemma find_app_first {A} (sel : A -> bool) (l l' : list A) (a : A) :
  find sel l = Some a -> find sel (l ++ l') = Some a.
Proof.
  induction l as [| x l IH]; cbn [find app]; intros Hsome.
  - discriminate.
  - destruct (sel x); [exact Hsome | apply IH, Hsome].
Qed.

Lemma find_replaceFirst {A} (sel : A -> bool) (a a' : A) (l : list A) :
  find sel l = Some a -> sel a' = true ->
  find sel (Mongoose.replaceFirst sel a' l) = Some a'.
Proof.
  induction l as [| x l IH]; cbn [find Mongoose.replaceFirst];
    intros Hfind Ha'.
  - discriminate.
  - destruct (sel x) eqn:Hx; cbn [find].
    + rewrite Ha'. reflexivity.
    + rewrite Hx. apply IH; assumption.
Qed.

Lemma map_replaceFirst {A B} (g : A -> B) (sel : A -> bool) (a a' : A)
    (l : list A) :
  find sel l = Some a -> g a' = g a ->
  map g (Mongoose.replaceFirst sel a' l) = map g l.
Proof.
  induction l as [| x l IH]; cbn [find Mongoose.replaceFirst map];
    intros Hfind Hg.
  - reflexivity.
  - destruct (sel x); cbn [map].
    + injection Hfind as ->. rewrite Hg. reflexivity.
    + rewrite IH; [reflexivity | assumption | assumption].
Qed.

Lemma replaceFirst_same {A} (sel : A -> bool) (a : A) (l : list A) :
  find sel l = Some a -> Mongoose.replaceFirst sel a l = l.
Proof.
  induction l as [| x l IH]; cbn [find Mongoose.replaceFirst]; intros Hfind.
  - reflexivity.
  - destruct (sel x).
    + injection Hfind as ->. reflexivity.
    + rewrite IH; [reflexivity | assumption].
Qed.

Lemma find_existsb {A} (sel : A -> bool) (a : A) (l : list A) :
  find sel l = Some a -> existsb sel l = true.
Proof.
  intros Hfind. apply find_some in Hfind. apply existsb_exists.
  exists a. exact Hfind.
Qed.

Lemma hasId_found (oid : ObjectId) (f : Fridge) (l : list Fridge) :
  find (Mongoose.hasId oid) l = Some f -> f_id f = oid.
Proof.
  intros Hfind. apply find_some in Hfind. destruct Hfind as [_ Hid].
  apply N.eqb_eq, Hid.
Qed.

Lemma hasPid_found (oid : ObjectId) (p : Product) (l : list Product) :
  find (Mongoose.hasPid oid) l = Some p -> p_id p = oid.
Proof.
  intros Hfind. apply find_some in Hfind. destruct Hfind as [_ Hid].
  apply N.eqb_eq, Hid.
Qed.

Lemma truthy_present (v : option string) :
  JS.truthy v = false <-> JS.present v = None.
Proof.
  unfold JS.truthy, JS.present. destruct v as [s |]; [| tauto].
  destruct (s =? EmptyString)%string; cbn; split; congruence.
Qed.

Lemma truthy_present_some (v : option string) :
  JS.truthy v = true <-> exists s, JS.present v = Some s /\ v = Some s.
Proof.
  unfold JS.truthy, JS.present. destruct v as [s |].
  - destruct (s =? EmptyString)%string; cbn; split.
    + discriminate.
    + intros [s' [Hs' _]]. discriminate.
    + intros _. exists s. split; reflexivity.
    + reflexivity.
  - split; [discriminate | intros [s [Hs _]]; discriminate].
Qed.

Lemma truthy_optnum_present (v : option Z) :
  JS.truthy_optnum v = false <-> JS.present_num v = None.
Proof.
  unfold JS.truthy_optnum, JS.present_num. destruct v as [n |]; [| tauto].
  destruct (JS.truthy_num n); split; congruence.
Qed.

(** ** FridgeController.create *)

Section FridgeCreate.
Context `{Runtime}.

(** X1. create answers 400 when the body has no name (absent or empty)
    and 409 when a stored fridge already has the trimmed name; either way
    it does nothing else: both collections, the outbound trace and the id
    source are as before. *)
Theorem fridge_create_rejects :
  forall (req : Request) (w : World),
    (JS.truthy (b_name (body req)) = false ->
     answers w (fst (FridgeController.create req w))
       (NextErr (createErrorMsg 400 "Bad request: Missing name for fridge.")))
    /\ (forall name existing,
          JS.present (b_name (body req)) = Some name ->
          find (fun f => (f_name f =? str_trim name)%string)
               (fridges (db w)) = Some existing ->
          answers w (fst (FridgeController.create req w))
            (NextErr (createErrorMsg 409
                        "Fridge with this name already exists."))).
Proof.
  intros req w. split.
  - intros Hname. apply truthy_present in Hname.
    unfold FridgeController.create. rewrite Hname. run_m.
    repeat split.
  - intros name existing Hname Hfind.
    unfold FridgeController.create. rewrite Hname. run_m. rewrite Hfind.
    repeat split.
Qed.

Lemma fridge_create_run (req : Request) (w : World) (name : string)
    (u : User) (owner : ObjectId) :
  JS.present (b_name (body req)) = Some name ->
  find (fun f => (f_name f =? str_trim name)%string) (fridges (db w)) = None ->
  user req = Some u ->
  castObjectId (u_id u) = Some owner ->
  Mongoose.validFridge (newFridge (idgen w) owner name (body req)) = true ->
  FridgeController.create req w
  = (mkWorld (mkStore (fridges (db w)
                         ++ [newFridge (idgen w) owner name (body req)])
                      (products (db w)))
             (sent w) (replied w ++ [Res 201]) (N.succ (idgen w)), Ok tt).
Proof.
  intros Hname Hfind Huser Hcast Hvalid.
  unfold FridgeController.create, reqUserId. rewrite Hname, Huser. run_m.
  rewrite Hfind, Hcast.
  unfold newFridge in Hvalid. rewrite Hvalid. reflexivity.
Qed.

(** X2. A create that passes its checks appends exactly one fridge: the
    trimmed name and location of the body, the requester as owner, no
    products, no temperature, no webhook.  It answers 201.  From then on
    every create with that name is answered 409 and stores nothing. *)
Theorem fridge_create_stores :
  forall (req : Request) (w : World) (name : string) (u : User)
         (owner : ObjectId),
    JS.present (b_name (body req)) = Some name ->
    find (fun f => (f_name f =? str_trim name)%string) (fridges (db w))
    = None ->
    user req = Some u ->
    castObjectId (u_id u) = Some owner ->
    Mongoose.validFridge (newFridge (idgen w) owner name (body req)) = true ->
    let w' := fst (FridgeController.create req w) in
    fridges (db w')
    = fridges (db w) ++ [newFridge (idgen w) owner name (body req)]
    /\ products (db w') = products (db w)
    /\ replied w' = replied w ++ [Res 201]
    /\ hasWebhook (newFridge (idgen w) owner name (body req)) = false
    /\ forall req2,
         JS.present (b_name (body req2)) = Some name ->
         answers w' (fst (FridgeController.create req2 w'))
           (NextErr (createErrorMsg 409
                       "Fridge with this name already exists.")).
Proof.
  intros req w name u owner Hname Hfind Huser Hcast Hvalid.
  rewrite (fridge_create_run req w name u owner Hname Hfind Huser Hcast
             Hvalid).
  cbn [fst db fridges products replied].
  do 4 (split; [reflexivity |]).
  intros req2 Hname2.
  unfold FridgeController.create. rewrite Hname2. run_m.
  rewrite (find_app_last _ _ _ Hfind); [repeat split |].
  unfold newFridge. cbn [f_name]. apply String.eqb_refl.
Qed.

End FridgeCreate.

(** ** FridgeController.putEdit and patchEdit *)

Section FridgeEdit.
Context `{Runtime}.

Lemma applyEdits_core (fridge : Fridge) (b : Body) :
  fridgeCore (applyEdits fridge b) = fridgeCore fridge.
Proof.
  unfold applyEdits, fridgeCore.
  destruct (JS.present (b_name b)), (JS.present (b_location b)),
    (JS.present_num (b_temperature b)); reflexivity.
Qed.

Lemma applyEdits_paths (fridge : Fridge) (b : Body) :
  f_name (applyEdits fridge b)
  = match JS.present (b_name b) with
    | Some v => str_trim v
    | None => f_name fridge
    end
  /\ f_location (applyEdits fridge b)
     = match JS.present (b_location b) with
       | Some v => Some (str_trim v)
       | None => f_location fridge
       end
  /\ f_temperature (applyEdits fridge b)
     = match JS.present_num (b_temperature b) with
       | Some v => Some v
       | None => f_temperature fridge
       end.
Proof.
  unfold applyEdits.
  destruct (JS.present (b_name b)), (JS.present (b_location b)),
    (JS.present_num (b_temperature b)); repeat split.
Qed.

Lemma editFrame_refl (b : Body) (w w' : World) :
  db w' = db w -> sent w' = sent w -> editFrame b w w'.
Proof.
  intros Hdb Hsent. unfold editFrame. rewrite Hdb, Hsent. repeat split.
Qed.

Lemma editFrame_save (b : Body) (w : World) (oid : ObjectId)
    (fridge : Fridge) :
  find (Mongoose.hasId oid) (fridges (db w)) = Some fridge ->
  editFrame b w (fst (Mongoose.Fridge_save (applyEdits fridge b) w)).
Proof.
  intros Hfind. unfold Mongoose.Fridge_save.
  destruct (Mongoose.validFridge (applyEdits fridge b));
    [| apply editFrame_refl; reflexivity].
  run_m.
  destruct (existsb (Mongoose.hasId (f_id (applyEdits fridge b)))
              (fridges (db w))); [| apply editFrame_refl; reflexivity].
  assert (Hid : f_id (applyEdits fridge b) = oid).
  { pose proof (applyEdits_core fridge b) as Hcore.
    unfold fridgeCore in Hcore. injection Hcore as Hid _ _ _ _.
    rewrite Hid. apply (hasId_found _ _ _ Hfind). }
  rewrite Hid.
  destruct (applyEdits_paths fridge b) as [Hn [Hl Ht]].
  unfold editFrame. cbn [db fridges products sent fst].
  split; [apply (map_replaceFirst _ _ fridge _ _ Hfind), applyEdits_core |].
  split; [reflexivity |]. split; [reflexivity |].
  split; [| split].
  - intros Hname. apply truthy_present in Hname.
    apply (map_replaceFirst _ _ fridge _ _ Hfind).
    rewrite Hn, Hname. reflexivity.
  - intros Hloc. apply truthy_present in Hloc.
    apply (map_replaceFirst _ _ fridge _ _ Hfind).
    rewrite Hl, Hloc. reflexivity.
  - intros Htemp. apply truthy_optnum_present in Htemp.
    apply (map_replaceFirst _ _ fridge _ _ Hfind).
    rewrite Ht, Htemp. reflexivity.
Qed.

Lemma editFrame_reply (b : Body) (w w1 : World) (r : Reply) :
  editFrame b w w1 -> editFrame b w (fst (reply r w1)).
Proof. intros Hf. exact Hf. Qed.

Lemma catchObjectId_frame (e : Exn) (w : World) :
  db (fst (catchObjectId e w)) = db w
  /\ sent (fst (catchObjectId e w)) = sent w.
Proof.
  unfold catchObjectId. destruct (kindIsObjectId e); split; reflexivity.
Qed.

Lemma editFrame_catch (b : Body) (w : World) (m : M unit) :
  editFrame b w (fst (m w)) ->
  editFrame b w (fst (try_catch m catchObjectId w)).
Proof.
  intros Hm. unfold try_catch.
  destruct (m w) as [w1 [[] | e]]; cbn [fst] in *; [exact Hm |].
  destruct (catchObjectId_frame e w1) as [Hdb Hsent].
  unfold editFrame in *. rewrite Hdb, Hsent. exact Hm.
Qed.

Lemma editFrame_save_reply (b : Body) (w : World) (oid : ObjectId)
    (fridge : Fridge) (status : Z) :
  find (Mongoose.hasId oid) (fridges (db w)) = Some fridge ->
  editFrame b w
    (fst (bind (Mongoose.Fridge_save (applyEdits fridge b))
               (fun _ => res_status status) w)).
Proof.
  intros Hfind. pose proof (editFrame_save b w oid fridge Hfind) as Hframe.
  unfold bind.
  destruct (Mongoose.Fridge_save (applyEdits fridge b) w) as [w1 [[] | e]];
    cbn [fst] in *; exact Hframe.
Qed.

(** X3. Whatever the request and whatever the outcome, putEdit and
    patchEdit leave the products, the outbound trace and, of every stored
    fridge, the id, owner, product references and webhook target as they
    were; and they leave name, location or temperature of every fridge as
    it was when the body has no truthy value for it: a value that is
    absent, the empty string, or the number 0 is not assigned. *)
Theorem fridge_edits_frame :
  forall (req : Request) (w : World),
    editFrame (body req) w (fst (FridgeController.putEdit req w))
    /\ editFrame (body req) w (fst (FridgeController.patchEdit req w)).
Proof.
  intros req w. split.
  - unfold FridgeController.putEdit. apply editFrame_catch.
    unfold Mongoose.Fridge_findById, Mongoose.castId,
      Mongoose.Fridge_findByOid.
    unfold bind at 1 2 3.
    destruct (castObjectId (params_id req)) as [oid |];
      [| apply editFrame_refl; reflexivity].
    unfold ret at 1 2. unfold getStore. cbn [fst snd].
    destruct (find (Mongoose.hasId oid) (fridges (db w))) as [fridge |]
      eqn:Hfind; [| apply editFrame_refl; reflexivity].
    repeat (match goal with
            | |- context [if ?c then next _ else _] => destruct c
            end; [apply editFrame_refl; reflexivity |]).
    apply (editFrame_save_reply _ _ oid), Hfind.
  - unfold FridgeController.patchEdit. apply editFrame_catch.
    unfold Mongoose.Fridge_findById, Mongoose.castId,
      Mongoose.Fridge_findByOid.
    unfold bind at 1 2 3.
    destruct (castObjectId (params_id req)) as [oid |];
      [| apply editFrame_refl; reflexivity].
    unfold ret at 1 2. unfold getStore. cbn [fst snd].
    destruct (find (Mongoose.hasId oid) (fridges (db w))) as [fridge |]
      eqn:Hfind; [| apply editFrame_refl; reflexivity].
    match goal with
    | |- context [if ?c then next _ else _] => destruct c
    end; [apply editFrame_refl; reflexivity |].
    apply (editFrame_save_reply _ _ oid), Hfind.
Qed.


End FridgeEdit.

(** ** Ids that are malformed or unknown *)

Section FridgeIds.
Context `{Runtime}.

(** X5. With an id that does not cast to an ObjectId, findById, putEdit,
    patchEdit and delete answer 404, but registerWebhook hands the
    CastError itself to [next], which the client sees as a 500.  With an
    id that casts but is not stored, all five answer 404.  None of them
    does anything else. *)
Theorem fridge_unknown_id :
  forall (req : Request) (w : World),
    (castObjectId (params_id req) = None ->
     answers w (fst (FridgeController.findById req w))
       (NextErr (createError 404))
     /\ answers w (fst (FridgeController.putEdit req w))
          (NextErr (createError 404))
     /\ answers w (fst (FridgeController.patchEdit req w))
          (NextErr (createError 404))
     /\ answers w (fst (FridgeController.delete req w))
          (NextErr (createError 404))
     /\ answers w (fst (FridgeController.registerWebhook req w))
          (NextErr (CastError "ObjectId"))
     /\ clientStatus (NextErr (CastError "ObjectId")) = Some 500)
    /\ (forall oid,
          castObjectId (params_id req) = Some oid ->
          find (Mongoose.hasId oid) (fridges (db w)) = None ->
          answers w (fst (FridgeController.findById req w))
            (NextErr (createError 404))
          /\ answers w (fst (FridgeController.putEdit req w))
               (NextErr (createError 404))
          /\ answers w (fst (FridgeController.patchEdit req w))
               (NextErr (createError 404))
          /\ answers w (fst (FridgeController.delete req w))
               (NextErr (createError 404))
          /\ answers w (fst (FridgeController.registerWebhook req w))
               (NextErr (createError 404))).
Proof.
  intros req w. split.
  - intros Hcast.
    unfold FridgeController.findById, FridgeController.putEdit,
      FridgeController.patchEdit, FridgeController.delete,
      FridgeController.registerWebhook.
    run_m. rewrite Hcast. cbn. repeat split.
  - intros oid Hcast Hfind.
    unfold FridgeController.findById, FridgeController.putEdit,
      FridgeController.patchEdit, FridgeController.delete,
      FridgeController.registerWebhook.
    run_m. rewrite Hcast. cbn [fst snd]. rewrite Hfind. cbn.
    repeat split.
Qed.

End FridgeIds.

(** ** FridgeController.delete *)

Section FridgeDelete.
Context `{Runtime}.

Lemma removeFirst_absent {A} (sel : A -> bool) (l : list A) :
  (forall a, In a l -> sel a = false) -> Mongoose.removeFirst sel l = l.
Proof.
  induction l as [| x l IH]; cbn [Mongoose.removeFirst]; intros Hall.
  - reflexivity.
  - rewrite (Hall x (or_introl eq_refl)).
    rewrite IH; [reflexivity |]. intros a Ha. apply Hall. right. exact Ha.
Qed.

Lemma filter_all {A} (sel : A -> bool) (l : list A) :
  (forall a, In a l -> sel a = true) -> filter sel l = l.
Proof.
  induction l as [| x l IH]; cbn [filter]; intros Hall.
  - reflexivity.
  - rewrite (Hall x (or_introl eq_refl)).
    rewrite IH; [reflexivity |]. intros a Ha. apply Hall. right. exact Ha.
Qed.

(** With unique ids, removing the first product of an id removes every
    product of that id. *)
Lemma removeFirst_unique (oid : ObjectId) (l : list Product) :
  NoDup (map p_id l) ->
  Mongoose.removeFirst (Mongoose.hasPid oid) l
  = filter (fun p => negb (N.eqb (p_id p) oid)) l.
Proof.
  induction l as [| x l IH]; cbn [Mongoose.removeFirst filter map];
    intros Hnd.
  - reflexivity.
  - inversion Hnd as [| ? ? Hnotin Hnd']; subst.
    unfold Mongoose.hasPid at 1.
    destruct (N.eqb_spec (p_id x) oid) as [Heq | Hne]; cbn [negb].
    + symmetry. apply filter_all. intros a Ha.
      destruct (N.eqb_spec (p_id a) oid) as [Heq' | _]; [| reflexivity].
      exfalso. apply Hnotin. rewrite Heq, <- Heq'. apply in_map, Ha.
    + rewrite (IH Hnd'). reflexivity.
Qed.

Lemma NoDup_map_filter {A B} (g : A -> B) (sel : A -> bool) (l : list A) :
  NoDup (map g l) -> NoDup (map g (filter sel l)).
Proof.
  induction l as [| x l IH]; cbn [filter map]; intros Hnd.
  - constructor.
  - inversion Hnd as [| ? ? Hnotin Hnd']; subst.
    destruct (sel x); cbn [map]; [| apply IH, Hnd'].
    constructor; [| apply IH, Hnd'].
    intros Hin. apply Hnotin. apply in_map_iff in Hin.
    destruct Hin as [a [Hga Ha]]. apply filter_In in Ha.
    rewrite <- Hga. apply in_map, Ha.
Qed.

Lemma filter_unreferenced_cons (oid : ObjectId) (ids : list ObjectId)
    (ps : list Product) :
  filter (unreferenced ids) (filter (fun p => negb (N.eqb (p_id p) oid)) ps)
  = filter (unreferenced (oid :: ids)) ps.
Proof.
  induction ps as [| p ps IH]; cbn [filter]; [reflexivity |].
  unfold unreferenced at 2. cbn [existsb].
  destruct (N.eqb (p_id p) oid); cbn [negb orb filter].
  - exact IH.
  - fold (unreferenced ids p).
    destruct (unreferenced ids p); rewrite IH; reflexivity.
Qed.

Lemma deleteProducts_run (ids : list ObjectId) :
  forall w : World,
    NoDup (map p_id (products (db w))) ->
    FridgeController.deleteProducts ids w
    = (mkWorld (mkStore (fridges (db w))
                        (filter (unreferenced ids) (products (db w))))
               (sent w) (replied w) (idgen w), Ok tt).
Proof.
  induction ids as [| oid ids IH]; intros w Hnd;
    cbn [FridgeController.deleteProducts].
  - unfold ret. rewrite filter_all; [destruct w as [[fs ps] ? ? ?]; reflexivity |].
    intros a _. reflexivity.
  - unfold bind at 1. unfold Mongoose.Product_deleteOne, bind, getStore,
      putStore. cbn [fst snd].
    rewrite IH; cbn [db sent replied idgen fridges products].
    + rewrite (removeFirst_unique oid _ Hnd), filter_unreferenced_cons.
      reflexivity.
    + rewrite (removeFirst_unique oid _ Hnd).
      apply NoDup_map_filter, Hnd.
Qed.

Lemma find_filter_none {A} (sel keep : A -> bool) (l : list A) :
  (forall a, sel a = true -> keep a = false) ->
  find sel (filter keep l) = None.
Proof.
  intros Hexcl.
  induction l as [| x l IH]; cbn [filter find]; [reflexivity |].
  destruct (keep x) eqn:Hk; [| exact IH].
  cbn [find]. destruct (sel x) eqn:Hs; [| exact IH].
  rewrite (Hexcl x Hs) in Hk. discriminate.
Qed.

(** X6. Deleting a fridge that exists, in a collection of products with
    unique ids, removes that fridge and every product its [products]
    lists, whichever fridge the product says it belongs to, and nothing
    else; it answers 204.  Afterwards none of the listed ids resolves. *)
Theorem fridge_delete_cascade :
  forall (req : Request) (w : World) (oid : ObjectId) (fridge : Fridge),
    castObjectId (params_id req) = Some oid ->
    find (Mongoose.hasId oid) (fridges (db w)) = Some fridge ->
    NoDup (map p_id (products (db w))) ->
    let w' := fst (FridgeController.delete req w) in
    fridges (db w') = Mongoose.removeFirst (Mongoose.hasId oid) (fridges (db w))
    /\ products (db w')
       = filter (unreferenced (f_products fridge)) (products (db w))
    /\ replied w' = replied w ++ [Res 204]
    /\ sent w' = sent w
    /\ forall pid, In pid (f_products fridge) ->
                   lookupProduct (db w') pid = None.
Proof.
  intros req w oid fridge Hcast Hfind Hnd.
  assert (Hrun : FridgeController.delete req w
                 = (mkWorld
                      (mkStore (Mongoose.removeFirst (Mongoose.hasId oid)
                                  (fridges (db w)))
                               (filter (unreferenced (f_products fridge))
                                  (products (db w))))
                      (sent w) (replied w ++ [Res 204]) (idgen w), Ok tt)).
  { unfold FridgeController.delete, try_catch.
    unfold Mongoose.Fridge_findById, Mongoose.castId,
      Mongoose.Fridge_findByOid.
    unfold bind at 1 2 3. rewrite Hcast. unfold ret at 1 2.
    unfold getStore at 1. cbn [fst snd]. rewrite Hfind.
    unfold bind at 1. rewrite (deleteProducts_run _ w Hnd).
    rewrite (hasId_found _ _ _ Hfind). reflexivity. }
  rewrite Hrun. cbn [fst db fridges products replied sent].
  do 4 (split; [reflexivity |]).
  intros pid Hin. unfold lookupProduct. cbn [products].
  apply find_filter_none. intros p Hp.
  unfold Mongoose.hasPid in Hp. apply N.eqb_eq in Hp.
  unfold unreferenced. apply negb_false_iff, existsb_exists.
  exists pid. split; [exact Hin | apply N.eqb_eq, Hp].
Qed.

End FridgeDelete.

(** ** FridgeController.registerWebhook, and the cycle after it *)

Section Register.
Context `{Runtime}.

Lemma registerWebhook_run (req : Request) (w : World) (oid : ObjectId)
    (fridge : Fridge) :
  castObjectId (params_id req) = Some oid ->
  find (Mongoose.hasId oid) (fridges (db w)) = Some fridge ->
  JS.truthy (b_webhookUrl (body req)) = true ->
  JS.truthy (b_webhookSecret (body req)) = true ->
  Mongoose.validFridge fridge = true ->
  FridgeController.registerWebhook req w
  = (mkWorld
       (mkStore (Mongoose.replaceFirst (Mongoose.hasId oid)
                   (setWebhook fridge (b_webhookUrl (body req))
                               (b_webhookSecret (body req)))
                   (fridges (db w)))
                (products (db w)))
       (sent w) (replied w ++ [Res 204]) (idgen w), Ok tt).
Proof.
  intros Hcast Hfind Hurl Hsec Hvalid.
  unfold FridgeController.registerWebhook. run_m.
  rewrite Hcast. cbn [fst snd]. rewrite Hfind, Hurl, Hsec. cbn [negb orb].
  unfold Mongoose.validFridge in *. cbn [setWebhook f_name f_location f_id].
  rewrite Hvalid. cbn [fst snd].
  rewrite (hasId_found _ _ _ Hfind), (find_existsb _ _ _ Hfind).
  reflexivity.
Qed.


End Register.

(** ** A whole cleanout cycle *)

Section Cycle.
Context `{Runtime}.

Lemma cleanOut_intact_answered (date : Date) (w : World) :
  forallb (intact (db w)) (monitored (db w)) = true ->
  answered (List.length (sent w))
           (map webhookCall (map (scanned date (db w)) (monitored (db w))))
  = true ->
  FridgeController.cleanOut date w
  = (after w (map webhookCall
                (map (scanned date (db w)) (monitored (db w))))
           (Res 204), Ok tt).
Proof.
  intros Hintact Hans.
  apply cleanOut_all_answered; [| exact Hans].
  rewrite (checkFridges_intact date w Hintact). reflexivity.
Qed.

(** X8. When no reference of a monitored fridge dangles and every call is
    answered, a cleanout cycle calls every fridge that has a webhook, once
    and in the order of the collection, also those with nothing expired,
    and no other fridge; each call goes to the stored url and carries the
    fridge's id, its expired members and the stored secret.  It answers
    204 and writes nothing.  With no monitored fridge it calls nobody. *)
Theorem cleanOut_end_to_end :
  forall (date : Date) (w : World),
    forallb (intact (db w)) (monitored (db w)) = true ->
    answered (List.length (sent w))
             (map webhookCall (map (scanned date (db w)) (monitored (db w))))
    = true ->
    let w' := fst (FridgeController.cleanOut date w) in
    sent w'
    = sent w
      ++ map (fun f =>
                mkOutbound (JS.template (f_webhookUrl f))
                  (mkNotification (f_id f)
                     (filter (expired date) (members (db w) f))
                     (f_webhookSecret f)))
             (monitored (db w))
    /\ replied w' = replied w ++ [Res 204]
    /\ db w' = db w
    /\ (monitored (db w) = [] -> sent w' = sent w).
Proof.
  intros date w Hintact Hans.
  rewrite (cleanOut_intact_answered date w Hintact Hans).
  cbn [fst after sent replied db]. rewrite map_map.
  split; [reflexivity |]. split; [reflexivity |]. split; [reflexivity |].
  intros ->. cbn. apply app_nil_r.
Qed.

(** X9. When some reference of a monitored fridge dangles, a cleanout
    cycle calls nobody, hands a TypeError to [next], which the client
    sees as a 500, and writes nothing. *)
Theorem cleanOut_scan_failure :
  forall (date : Date) (w : World),
    forallb (intact (db w)) (monitored (db w)) = false ->
    exists msg,
      answers w (fst (FridgeController.cleanOut date w))
        (NextErr (TypeError msg))
      /\ clientStatus (NextErr (TypeError msg)) = Some 500.
Proof.
  intros date w Hdangling.
  destruct (checkFridges_dangling date w Hdangling) as [msg Hscan].
  exists msg. split; [| reflexivity].
  rewrite (cleanOut_scan_failed date w (TypeError msg));
    [| rewrite Hscan; reflexivity].
  repeat split.
Qed.



(** X11. Registration and cycle together: after a registration that
    passed its checks, a cleanout cycle in a store without dangling
    references and with every call answered calls the registered url with
    the registered secret, the fridge's id and its expired members. *)
Theorem registered_target_is_called :
  forall (req : Request) (w : World) (oid : ObjectId) (fridge : Fridge)
         (url secret : string) (date : Date),
    castObjectId (params_id req) = Some oid ->
    find (Mongoose.hasId oid) (fridges (db w)) = Some fridge ->
    b_webhookUrl (body req) = Some url ->
    b_webhookSecret (body req) = Some secret ->
    url <> EmptyString ->
    secret <> EmptyString ->
    Mongoose.validFridge fridge = true ->
    let w' := fst (FridgeController.registerWebhook req w) in
    forallb (intact (db w')) (monitored (db w')) = true ->
    answered (List.length (sent w'))
             (map webhookCall (map (scanned date (db w')) (monitored (db w'))))
    = true ->
    In (mkOutbound url
          (mkNotification oid
             (filter (expired date)
                     (resolve (db w') (f_products fridge)))
             (Some secret)))
       (sent (fst (FridgeController.cleanOut date w'))).
Proof.
  intros req w oid fridge url secret date Hcast Hfind Hurl Hsec Hu Hs Hvalid
    w' Hintact Hans.
  rewrite (cleanOut_intact_answered date w' Hintact Hans).
  cbn [fst after sent]. apply in_or_app. right.
  assert (Htu : JS.truthy (b_webhookUrl (body req)) = true).
  { rewrite Hurl. cbn. apply negb_true_iff, String.eqb_neq, Hu. }
  assert (Hts : JS.truthy (b_webhookSecret (body req)) = true).
  { rewrite Hsec. cbn. apply negb_true_iff, String.eqb_neq, Hs. }
  assert (Hmon : In (setWebhook fridge (Some url) (Some secret))
                    (monitored (db w'))).
  { subst w'.
    rewrite (registerWebhook_run req w oid fridge Hcast Hfind Htu Hts Hvalid).
    cbn [fst db]. unfold monitored. cbn [fridges]. apply filter_In.
    rewrite Hurl, Hsec. split; [| reflexivity].
    assert (Hid : Mongoose.hasId oid
                    (setWebhook fridge (Some url) (Some secret)) = true).
    { unfold Mongoose.hasId. cbn [setWebhook f_id].
      apply N.eqb_eq, (hasId_found _ _ _ Hfind). }
    pose proof (find_replaceFirst _ fridge _ _ Hfind Hid) as Hfound.
    apply find_some in Hfound. apply Hfound. }
  rewrite map_map. apply in_map_iff.
  exists (setWebhook fridge (Some url) (Some secret)).
  split; [| exact Hmon].
  unfold webhookCall, scanned, members.
  cbn [doc expiredProducts setWebhook f_webhookUrl f_webhookSecret f_id
       f_products JS.template].
  rewrite (hasId_found _ _ _ Hfind). reflexivity.
Qed.

End Cycle.

(** ** The routes: who gets through *)

Section Gates.
Context `{Runtime}.

Lemma authenticateJWT_outcome (req : Request) :
  (exists cause,
      authenticateJWT req = (req, NextErr (HttpError 401 None (Some cause))))
  \/ (exists payload,
         authenticateJWT req
         = (setUser req
              (mkUser (sub payload) (given_name payload)
                      (family_name payload) (email payload) (id payload)
                      (x_permission_level payload)), Next)).
Proof.
  unfold authenticateJWT, authenticateJWT_try.
  destruct (authorization req) as [header |];
    [| left; eexists; reflexivity].
  destruct (match nth_error (JS.split " " header) 0 with
            | Some scheme => negb (scheme =? "Bearer")%string
            | None => true
            end); [left; eexists; reflexivity |].
  destruct (jwt_verify (nth_error (JS.split " " header) 1)) as [payload |];
    [right; exists payload; reflexivity | left; eexists; reflexivity].
Qed.

Lemma serve_route (ep : Endpoint) (req : Request) :
  requestOf ep = Some req ->
  passesSaveFridge ep req = true ->
  serve ep
  = route (if isGated ep then Some PermissionLevels.READ else None)
          (handlerOf ep) req.
Proof.
  intros Hreq Hpass.
  destruct ep; cbn in Hreq; try discriminate; injection Hreq as ->;
    cbn [serve handlerOf isGated]; try reflexivity;
    unfold saveFridge; unfold passesSaveFridge in Hpass;
    cbn [isProductEndpoint negb orb] in Hpass; rewrite Hpass; reflexivity.
Qed.

(** X12. Of all fourteen endpoints only the cleanout trigger runs without
    a verified token: when authenticateJWT rejects the request, every
    other endpoint answers 401 and its controller method never runs, so
    nothing is read, written or sent.  (A product endpoint whose fridge
    id is empty answers 400 before that.) *)
Theorem unauthenticated_request_stops :
  forall (ep : Endpoint) (req : Request) (w : World),
    requestOf ep = Some req ->
    snd (authenticateJWT req) <> Next ->
    let w' := handle ep w in
    db w' = db w
    /\ sent w' = sent w
    /\ idgen w' = idgen w
    /\ ((passesSaveFridge ep req = true
         /\ map clientStatus (replied w') = [Some 401])
        \/ (passesSaveFridge ep req = false
            /\ map clientStatus (replied w') = [Some 400])).
Proof.
  intros ep req w Hreq Hauth. unfold handle.
  destruct (passesSaveFridge ep req) eqn:Hpass.
  - rewrite (serve_route ep req Hreq Hpass). unfold route.
    destruct (authenticateJWT_outcome req) as [[cause Hc] | [payload Hp]].
    + rewrite Hc. cbn. repeat split. left. split; reflexivity.
    + rewrite Hp in Hauth. cbn in Hauth. contradiction.
  - destruct ep; cbn in Hreq; try discriminate; injection Hreq as ->;
      unfold passesSaveFridge in Hpass;
      cbn [isProductEndpoint negb orb] in Hpass; try discriminate;
      cbn [serve]; unfold saveFridge; rewrite Hpass; cbn;
      (repeat split; right; split; reflexivity).
Qed.

Lemma hasPermission_READ (req : Request) (u : User) :
  hasPermission (setUser req u) PermissionLevels.READ
  = if Z.land (permissionLevel u) PermissionLevels.READ =? 0
    then NextErr (createError 403) else Next.
Proof. apply hasPermission_land. cbv. split; congruence. Qed.

(** X13. Every gated route asks for READ and nothing more.  With a
    verified token whose level has the READ bit, every endpoint, delete
    and webhook registration included, runs its controller method on the
    request with [req.user] filled in.  With a verified token whose level
    lacks the READ bit, the nine gated endpoints answer 403 and do nothing
    else, while the list and create endpoints still run their method. *)
Theorem routes_ask_for_READ :
  forall (ep : Endpoint) (req : Request) (w : World) (payload : Payload),
    requestOf ep = Some req ->
    passesSaveFridge ep req = true ->
    snd (authenticateJWT req) = Next ->
    fst (authenticateJWT req)
    = setUser req
        (mkUser (sub payload) (given_name payload) (family_name payload)
                (email payload) (id payload) (x_permission_level payload)) ->
    (Z.land (x_permission_level payload) PermissionLevels.READ <> 0
     \/ isGated ep = false ->
     serve ep w = handlerOf ep (fst (authenticateJWT req)) w)
    /\ (Z.land (x_permission_level payload) PermissionLevels.READ = 0 ->
        isGated ep = true ->
        answers w (fst (serve ep w)) (NextErr (createError 403))
        /\ clientStatus (NextErr (createError 403)) = Some 403).
Proof.
  intros ep req w payload Hreq Hpass Hnext Hfst.
  rewrite (serve_route ep req Hreq Hpass). unfold route.
  destruct (authenticateJWT req) as [req' r]. cbn [fst snd] in *.
  subst r req'.
  destruct (isGated ep) eqn:Hgated.
  - rewrite hasPermission_READ. cbn [permissionLevel].
    split.
    + intros [Hbit | Hopen]; [| discriminate].
      destruct (Z.eqb_spec (Z.land (x_permission_level payload)
                              PermissionLevels.READ) 0);
        [contradiction | reflexivity].
    + intros Hzero _. rewrite Hzero. cbn. repeat split.
  - split; [reflexivity | discriminate].
Qed.

End Gates.

(** ** One answer per request *)

Section OneAnswer.
Context `{Runtime}.

Lemma quiet_ret {A} (a : A) : quiet (ret a).
Proof. intros w. reflexivity. Qed.

Lemma quiet_throw {A} (e : Exn) : quiet (@throw A e).
Proof. intros w. reflexivity. Qed.

Lemma quiet_bind {A B} (m : M A) (k : A -> M B) :
  quiet m -> (forall a, quiet (k a)) -> quiet (bind m k).
Proof.
  intros Hm Hk w. unfold bind. specialize (Hm w).
  destruct (m w) as [w1 [a | e]]; cbn [fst] in *.
  - rewrite (Hk a w1). exact Hm.
  - exact Hm.
Qed.

Lemma once_reply (r : Reply) : once (reply r).
Proof. intros w. cbn. exists r. reflexivity. Qed.

Lemma once_bind {A} (m : M A) (k : A -> M unit) :
  quiet m -> (forall a, once (k a)) -> once (bind m k).
Proof.
  intros Hm Hk w. unfold bind. specialize (Hm w).
  destruct (m w) as [w1 [a | e]]; cbn [fst] in *.
  - specialize (Hk a w1). rewrite Hm in Hk. exact Hk.
  - exact Hm.
Qed.

Lemma answersOnce_reply (r : Reply) : answersOnce (reply r).
Proof. intros w. exists r. reflexivity. Qed.

Lemma answersOnce_catchObjectId (e : Exn) : answersOnce (catchObjectId e).
Proof.
  unfold catchObjectId. destruct (kindIsObjectId e); apply answersOnce_reply.
Qed.

Lemma answersOnce_try_catch (body : M unit) (handler : Exn -> M unit) :
  once body -> (forall e, answersOnce (handler e)) ->
  answersOnce (try_catch body handler).
Proof.
  intros Hb Hh w. unfold try_catch. specialize (Hb w).
  destruct (body w) as [w1 [[] | e]]; cbn [fst].
  - exact Hb.
  - destruct (Hh e w1) as [r Hr]. exists r. rewrite Hr, Hb. reflexivity.
Qed.

Lemma quiet_castId (s : string) : quiet (Mongoose.castId s).
Proof. intros w. unfold Mongoose.castId. destruct (castObjectId s); reflexivity. Qed.

Lemma quiet_reqUserId (req : Request) : quiet (reqUserId req).
Proof. intros w. unfold reqUserId. destruct (user req); reflexivity. Qed.

Lemma quiet_Fridge_findById (s : string) : quiet (Mongoose.Fridge_findById s).
Proof.
  apply quiet_bind; [apply quiet_castId | intros oid w; reflexivity].
Qed.

Lemma quiet_Product_findById (s : string) : quiet (Mongoose.Product_findById s).
Proof.
  apply quiet_bind; [apply quiet_castId | intros oid w; reflexivity].
Qed.

Lemma quiet_Fridge_find_owner (s : string) :
  quiet (Mongoose.Fridge_find_owner s).
Proof.
  apply quiet_bind; [apply quiet_castId | intros oid w; reflexivity].
Qed.

Lemma quiet_Product_find_fridge (s : string) :
  quiet (Mongoose.Product_find_fridge s).
Proof.
  apply quiet_bind; [apply quiet_castId | intros oid w; reflexivity].
Qed.

Lemma quiet_Fridge_findOne_name (s : string) :
  quiet (Mongoose.Fridge_findOne_name s).
Proof. intros w. reflexivity. Qed.

Lemma quiet_newObjectId : quiet newObjectId.
Proof. intros w. reflexivity. Qed.

Lemma quiet_Fridge_insert (f : Fridge) : quiet (Mongoose.Fridge_insert f).
Proof.
  intros w. unfold Mongoose.Fridge_insert.
  destruct (Mongoose.validFridge f); reflexivity.
Qed.

Lemma quiet_Fridge_save (f : Fridge) : quiet (Mongoose.Fridge_save f).
Proof.
  intros w. unfold Mongoose.Fridge_save.
  destruct (Mongoose.validFridge f); [| reflexivity].
  unfold bind, getStore. cbn [fst snd].
  destruct (existsb (Mongoose.hasId (f_id f)) (fridges (db w))); reflexivity.
Qed.

Lemma quiet_Fridge_deleteOne (oid : ObjectId) :
  quiet (Mongoose.Fridge_deleteOne oid).
Proof. intros w. reflexivity. Qed.

Lemma quiet_Product_insert (p : Product) : quiet (Mongoose.Product_insert p).
Proof. intros w. reflexivity. Qed.

Lemma quiet_Product_save (p : Product) : quiet (Mongoose.Product_save p).
Proof.
  intros w. unfold Mongoose.Product_save, bind, getStore. cbn [fst snd].
  destruct (existsb (Mongoose.hasPid (p_id p)) (products (db w)));
    reflexivity.
Qed.

Lemma quiet_Product_deleteOne (oid : ObjectId) :
  quiet (Mongoose.Product_deleteOne oid).
Proof. intros w. reflexivity. Qed.

Lemma quiet_deleteProducts (ids : list ObjectId) :
  quiet (FridgeController.deleteProducts ids).
Proof.
  induction ids as [| oid ids IH]; cbn [FridgeController.deleteProducts].
  - apply quiet_ret.
  - apply quiet_bind; [apply quiet_Product_deleteOne | intros _; exact IH].
Qed.

Lemma quiet_saveEdited (product : Product) (b : Body) :
  quiet (ProductController.saveEdited product b).
Proof.
  unfold ProductController.saveEdited.
  destruct (applyProductEdits product b);
    [apply quiet_Product_save | apply quiet_throw].
Qed.

Lemma quiet_checkFridges (date : Date) :
  quiet (WebhookService.checkFridges date).
Proof. intros w. rewrite checkFridges_world. reflexivity. Qed.

Lemma quiet_dispatch (fs : list ScannedFridge) :
  quiet (FridgeController.dispatch fs).
Proof.
  intros w. destruct (dispatch_prefix fs w) as [n Hn]. rewrite Hn.
  reflexivity.
Qed.

Ltac quiet_prim :=
  first
    [ apply quiet_Fridge_findById | apply quiet_Product_findById
    | apply quiet_Fridge_find_owner | apply quiet_Product_find_fridge
    | apply quiet_Fridge_findOne_name | apply quiet_newObjectId
    | apply quiet_reqUserId | apply quiet_Fridge_insert
    | apply quiet_Fridge_save | apply quiet_Fridge_deleteOne
    | apply quiet_Product_insert | apply quiet_Product_save
    | apply quiet_Product_deleteOne | apply quiet_deleteProducts
    | apply quiet_saveEdited | apply quiet_checkFridges
    | apply quiet_dispatch | apply quiet_castId ].

Ltac once_step :=
  match goal with
  | |- answersOnce (try_catch _ catchObjectId) =>
      apply answersOnce_try_catch; [| apply answersOnce_catchObjectId]
  | |- answersOnce (try_catch _ _) =>
      apply answersOnce_try_catch; [| intros ?; apply answersOnce_reply]
  | |- once (bind _ _) => apply once_bind; [quiet_prim | intros ?]
  | |- once (next _) => apply once_reply
  | |- once (res_status _) => apply once_reply
  | |- once (reply _) => apply once_reply
  | |- once (if ?c then _ else _) => destruct c
  | |- once (match ?x with _ => _ end) => destruct x
  end.

Lemma once_throw (e : Exn) : once (throw e).
Proof. intros w. reflexivity. Qed.

Lemma answersOnce_fridge_findAll (req : Request) :
  answersOnce (FridgeController.findAll req).
Proof. unfold FridgeController.findAll. repeat once_step. Qed.

Lemma answersOnce_fridge_findById (req : Request) :
  answersOnce (FridgeController.findById req).
Proof. unfold FridgeController.findById. repeat once_step. Qed.

Lemma answersOnce_fridge_create (req : Request) :
  answersOnce (FridgeController.create req).
Proof.
  unfold FridgeController.create. repeat once_step. apply once_throw.
Qed.

Lemma answersOnce_fridge_putEdit (req : Request) :
  answersOnce (FridgeController.putEdit req).
Proof. unfold FridgeController.putEdit. repeat once_step. Qed.

Lemma answersOnce_fridge_patchEdit (req : Request) :
  answersOnce (FridgeController.patchEdit req).
Proof. unfold FridgeController.patchEdit. repeat once_step. Qed.

Lemma answersOnce_fridge_delete (req : Request) :
  answersOnce (FridgeController.delete req).
Proof. unfold FridgeController.delete. repeat once_step. Qed.

Lemma answersOnce_cleanOut (date : Date) :
  answersOnce (FridgeController.cleanOut date).
Proof. unfold FridgeController.cleanOut. repeat once_step. Qed.

Lemma answersOnce_registerWebhook (req : Request) :
  answersOnce (FridgeController.registerWebhook req).
Proof. unfold FridgeController.registerWebhook. repeat once_step. Qed.

Lemma answersOnce_product_findAll (req : Request) :
  answersOnce (ProductController.findAll req).
Proof. unfold ProductController.findAll. repeat once_step. Qed.

Lemma answersOnce_product_findById (req : Request) :
  answersOnce (ProductController.findById req).
Proof. unfold ProductController.findById. repeat once_step. Qed.

Lemma answersOnce_product_putEdit (req : Request) :
  answersOnce (ProductController.putEdit req).
Proof. unfold ProductController.putEdit. repeat once_step. Qed.

Lemma answersOnce_product_patchEdit (req : Request) :
  answersOnce (ProductController.patchEdit req).
Proof. unfold ProductController.patchEdit. repeat once_step. Qed.

Lemma answersOnce_product_delete (req : Request) :
  answersOnce (ProductController.delete req).
Proof. unfold ProductController.delete. repeat once_step. Qed.

Lemma answersOnce_route (permission : option Z)
    (handler : Request -> M unit) (req : Request) :
  (forall req', answersOnce (handler req')) ->
  answersOnce (route permission handler req).
Proof.
  intros Hh. unfold route.
  destruct (authenticateJWT req) as [req' []]; try apply answersOnce_reply.
  destruct permission as [level |]; [| apply Hh].
  destruct (hasPermission req' level); try apply answersOnce_reply.
  apply Hh.
Qed.

Lemma answersOnce_saveFridge (handler : Request -> M unit) (req : Request) :
  answersOnce (handler req) -> answersOnce (saveFridge handler req).
Proof.
  intros Hh. unfold saveFridge.
  destruct (JS.truthy (Some (fridgeId req)));
    [exact Hh | apply answersOnce_reply].
Qed.

(** X14. Every endpoint except the product creation answers each request
    exactly once, with one call on [res] or one on [next], whatever the
    request, the store and the network: no request is left without an
    answer and none is answered twice. *)
Theorem one_answer_per_request :
  forall (ep : Endpoint) (w : World),
    isProductCreate ep = false ->
    exists r, replied (handle ep w) = [r].
Proof.
  intros ep w Hep. unfold handle.
  assert (Hone : answersOnce (serve ep)).
  { destruct ep; try discriminate; cbn [serve];
      try apply answersOnce_saveFridge; try apply answersOnce_route;
      auto using answersOnce_cleanOut, answersOnce_fridge_findAll,
        answersOnce_fridge_findById, answersOnce_fridge_create,
        answersOnce_fridge_putEdit, answersOnce_fridge_patchEdit,
        answersOnce_fridge_delete, answersOnce_registerWebhook,
        answersOnce_product_findAll, answersOnce_product_findById,
        answersOnce_product_putEdit, answersOnce_product_patchEdit,
        answersOnce_product_delete. }
  destruct (Hone (mkWorld (db w) (sent w) [] (idgen w))) as [r Hr].
  exists r. exact Hr.
Qed.

End OneAnswer.

(** ** ProductController.create *)

Section ProductCreate.
Context `{Runtime}.

(** X15. The two 400 branches of the product creation do not return.  For
    a body without a name, or whose expirationDate is not a valid date,
    the handler calls [next] with a 400 for each of the two that is wrong
    and then goes on to save; the save fails on the schema's required
    paths and the handler calls [next] once more, with the
    ValidationError.  Nothing is stored. *)
Theorem product_create_invalid :
  forall (req : Request) (w : World),
    JS.truthy (b_name (body req)) = false
    \/ newDate (b_expirationDate (body req)) = None ->
    let w' := fst (ProductController.create req w) in
    db w' = db w
    /\ sent w' = sent w
    /\ exists early,
         replied w' = replied w ++ early ++ [NextErr ValidationError]
         /\ (1 <= List.length early <= 2)%nat
         /\ Forall (fun r => clientStatus r = Some 400) early.
Proof.
  intros req w Hbad. unfold ProductController.create. run_m.
  assert (Hsave :
            match newDate (b_expirationDate (body req)),
                  JS.present (b_name (body req)),
                  castObjectId (fridgeId req) with
            | Some date, Some name, Some fid =>
                false
            | _, _, _ => true
            end = true).
  { destruct Hbad as [Hname | Hdate].
    - apply truthy_present in Hname. rewrite Hname.
      destruct (newDate (b_expirationDate (body req))); reflexivity.
    - rewrite Hdate. reflexivity. }
  destruct (JS.truthy (b_name (body req))) eqn:Hname;
    destruct (JS.truthy (b_expirationDate (body req))) eqn:Hexp;
    destruct (newDate (b_expirationDate (body req))) as [date |] eqn:Hdate;
    destruct (JS.present (b_name (body req))) as [name |] eqn:Hpres;
    destruct (castObjectId (fridgeId req)) as [fid |];
    try discriminate;
    try (apply truthy_present in Hname; congruence);
    try (destruct Hbad; discriminate);
    cbn; (split; [reflexivity |]); (split; [reflexivity |]);
    rewrite <- ?app_assoc; cbn [app];
    first
      [ (eexists [_; _]; split; [reflexivity |];
         split; [cbn; lia |]; repeat constructor)
      | (eexists [_]; split; [reflexivity |];
         split; [cbn; lia |]; repeat constructor) ].
Qed.

Lemma product_create_saved (req : Request) (w : World) (name : string)
    (date : Date) (fid : ObjectId) :
  JS.present (b_name (body req)) = Some name ->
  JS.truthy (b_expirationDate (body req)) = true ->
  newDate (b_expirationDate (body req)) = Some date ->
  castObjectId (fridgeId req) = Some fid ->
  ProductController.create req w
  = let p := mkProduct (idgen w) date (b_price (body req)) name fid
                       (b_category (body req)) in
    let w1 := mkWorld (mkStore (fridges (db w)) (products (db w) ++ [p]))
                      (sent w) (replied w) (N.succ (idgen w)) in
    match find (Mongoose.hasId fid) (fridges (db w)) with
    | None =>
        (mkWorld (db w1) (sent w1)
                 (replied w ++ [NextErr (createErrorMsg 404
                                           "Fridge not existing")])
                 (idgen w1), Ok tt)
    | Some fridge =>
        try_catch
          (bind (Mongoose.Fridge_save
                   (setProducts fridge (f_products fridge ++ [idgen w])))
                (fun _ => res_status 201))
          (fun error => next error) w1
    end.
Proof.
  intros Hname Hexp Hdate Hcast.
  assert (Htruthy : JS.truthy (b_name (body req)) = true).
  { apply truthy_present_some. unfold JS.present in Hname.
    destruct (b_name (body req)) as [s |]; [| discriminate].
    destruct (s =? EmptyString)%string eqn:Hs; [discriminate |].
    exists s. split; [| reflexivity].
    unfold JS.present. rewrite Hs. reflexivity. }
  unfold ProductController.create, when_.
  rewrite Htruthy, Hexp, Hdate, Hname, Hcast. cbn [negb orb].
  unfold Mongoose.Fridge_findById, Mongoose.castId. rewrite Hcast.
  unfold try_catch at 1. unfold bind at 1 2 3 4 5 6. unfold ret at 1 2 3.
  unfold newObjectId, Mongoose.Product_insert, Mongoose.Fridge_findByOid.
  unfold bind at 1 2. unfold getStore, putStore, ret. cbn [fst snd db sent
    replied idgen fridges products].
  destruct (find (Mongoose.hasId fid) (fridges (db w))) as [fridge |];
    reflexivity.
Qed.

(** X16. A product creation with a name and a valid date, for a fridge id
    that casts but is not stored, answers 404 after it has stored the
    product: the product stays in the collection though no fridge lists
    it. *)
Theorem product_create_orphan :
  forall (req : Request) (w : World) (name : string) (date : Date)
         (fid : ObjectId),
    JS.present (b_name (body req)) = Some name ->
    JS.truthy (b_expirationDate (body req)) = true ->
    newDate (b_expirationDate (body req)) = Some date ->
    castObjectId (fridgeId req) = Some fid ->
    find (Mongoose.hasId fid) (fridges (db w)) = None ->
    let w' := fst (ProductController.create req w) in
    products (db w')
    = products (db w)
      ++ [mkProduct (idgen w) date (b_price (body req)) name fid
                    (b_category (body req))]
    /\ fridges (db w') = fridges (db w)
    /\ replied w'
       = replied w ++ [NextErr (createErrorMsg 404 "Fridge not existing")]
    /\ clientStatus (NextErr (createErrorMsg 404 "Fridge not existing"))
       = Some 404.
Proof.
  intros req w name date fid Hname Hexp Hdate Hcast Hfind.
  rewrite (product_create_saved req w name date fid Hname Hexp Hdate Hcast).
  cbv zeta. rewrite Hfind. cbn. repeat split.
Qed.

Lemma product_create_stores_run :
  forall (req : Request) (w : World) (name : string) (date : Date)
         (fid : ObjectId) (fridge : Fridge),
    JS.present (b_name (body req)) = Some name ->
    JS.truthy (b_expirationDate (body req)) = true ->
    newDate (b_expirationDate (body req)) = Some date ->
    castObjectId (fridgeId req) = Some fid ->
    find (Mongoose.hasId fid) (fridges (db w)) = Some fridge ->
    Mongoose.validFridge fridge = true ->
    lookupProduct (db w) (idgen w) = None ->
    let w' := fst (ProductController.create req w) in
    let p := mkProduct (idgen w) date (b_price (body req)) name fid
                       (b_category (body req)) in
    let fridge' := setProducts fridge (f_products fridge ++ [idgen w]) in
    products (db w') = products (db w) ++ [p]
    /\ find (Mongoose.hasId fid) (fridges (db w')) = Some fridge'
    /\ replied w' = replied w ++ [Res 201]
    /\ lookupProduct (db w') (idgen w) = Some p
    /\ (intact (db w) fridge = true -> intact (db w') fridge' = true).
Proof.
  intros req w name date fid fridge Hname Hexp Hdate Hcast Hfind Hvalid
    Hfresh.
  rewrite (product_create_saved req w name date fid Hname Hexp Hdate Hcast).
  cbv zeta. rewrite Hfind.
  unfold try_catch, bind, Mongoose.Fridge_save.
  unfold Mongoose.validFridge in *. cbn [setProducts f_name f_location f_id].
  rewrite Hvalid. unfold bind, getStore, putStore, res_status, reply.
  cbn [fst snd db sent replied idgen fridges products].
  rewrite (hasId_found _ _ _ Hfind), (find_existsb _ _ _ Hfind).
  cbn [fst snd db sent replied idgen fridges products].
  assert (Hid : Mongoose.hasId fid
                  (setProducts fridge (f_products fridge ++ [idgen w]))
                = true).
  { unfold Mongoose.hasId. cbn [setProducts f_id].
    apply N.eqb_eq, (hasId_found _ _ _ Hfind). }
  assert (Hnew : lookupProduct
                   (mkStore
                      (Mongoose.replaceFirst (Mongoose.hasId fid)
                         (setProducts fridge (f_products fridge ++ [idgen w]))
                         (fridges (db w)))
                      (products (db w)
                       ++ [mkProduct (idgen w) date (b_price (body req)) name
                                     fid (b_category (body req))]))
                   (idgen w)
                 = Some (mkProduct (idgen w) date (b_price (body req)) name
                                   fid (b_category (body req)))).
  { unfold lookupProduct in *. cbn [products].
    apply find_app_last; [exact Hfresh |].
    unfold Mongoose.hasPid. cbn [p_id]. apply N.eqb_refl. }
  split; [reflexivity |].
  split; [apply (find_replaceFirst _ fridge _ _ Hfind Hid) |].
  split; [reflexivity |]. split; [exact Hnew |].
  intros Hintact. unfold intact in *. cbn [setProducts f_products].
  rewrite forallb_app. apply andb_true_iff. split.
  - rewrite forallb_forall in *. intros oid Hin.
    specialize (Hintact oid Hin). unfold lookupProduct in *. cbn [products].
    destruct (find (Mongoose.hasPid oid) (products (db w))) as [q |] eqn:Hq;
      [| discriminate].
    rewrite (find_app_first _ _ _ _ Hq). reflexivity.
  - cbn [forallb]. rewrite Hnew. reflexivity.
Qed.

(** X17. A product creation that passes its checks, for a stored fridge,
    stores the product under a new id and saves the fridge with that id
    appended to its [products] and every other path as it was; it answers
    201.  When the id was not yet in use the product can be looked up
    under it, and a fridge without dangling references stays without. *)
Theorem product_create_stores :
  forall (req : Request) (w : World) (name : string) (date : Date)
         (fid : ObjectId) (fridge : Fridge),
    JS.present (b_name (body req)) = Some name ->
    JS.truthy (b_expirationDate (body req)) = true ->
    newDate (b_expirationDate (body req)) = Some date ->
    castObjectId (fridgeId req) = Some fid ->
    find (Mongoose.hasId fid) (fridges (db w)) = Some fridge ->
    Mongoose.validFridge fridge = true ->
    lookupProduct (db w) (idgen w) = None ->
    let w' := fst (ProductController.create req w) in
    let p := mkProduct (idgen w) date (b_price (body req)) name fid
                       (b_category (body req)) in
    let fridge' :=
      mkFridge (f_id fridge) (f_location fridge) (f_name fridge)
               (f_ownerId fridge) (f_products fridge ++ [idgen w])
               (f_temperature fridge) (f_webhookUrl fridge)
               (f_webhookSecret fridge) in
    products (db w') = products (db w) ++ [p]
    /\ find (Mongoose.hasId fid) (fridges (db w')) = Some fridge'
    /\ option_map f_products (find (Mongoose.hasId fid) (fridges (db w')))
       = Some (f_products fridge ++ [idgen w])
    /\ replied w' = replied w ++ [Res 201]
    /\ lookupProduct (db w') (idgen w) = Some p
    /\ (intact (db w) fridge = true -> intact (db w') fridge' = true).
Proof.
  intros req w name date fid fridge Hname Hexp Hdate Hcast Hfind Hvalid
    Hfresh.
  destruct (product_create_stores_run req w name date fid fridge Hname Hexp
              Hdate Hcast Hfind Hvalid Hfresh)
    as [Hproducts [Hstored [Hreplied [Hlookup Hintact]]]].
  unfold setProducts in Hstored, Hintact. cbv zeta.
  split; [exact Hproducts |]. split; [exact Hstored |].
  split; [rewrite Hstored; reflexivity |].
  split; [exact Hreplied |]. split; [exact Hlookup | exact Hintact].
Qed.

End ProductCreate.

(** ** ProductController.delete *)

Section ProductDelete.
Context `{Runtime}.




End ProductDelete.

(** ** ProductController.putEdit and patchEdit *)

Section ProductEdit.
Context `{Runtime}.

Lemma applyProductEdits_keys (product product' : Product) (b : Body) :
  applyProductEdits product b = Some product' ->
  p_id product' = p_id product /\ p_fridgeId product' = p_fridgeId product.
Proof.
  unfold applyProductEdits.
  destruct (match JS.present (b_expirationDate b) with
            | Some s => castDate s
            | None => Some (p_expirationDate product)
            end); [| discriminate].
  intros Heq. injection Heq as <-. split; reflexivity.
Qed.

Lemma productFrame_refl (w w' : World) :
  db w' = db w -> sent w' = sent w -> productFrame w w'.
Proof.
  intros Hdb Hsent. unfold productFrame. rewrite Hdb, Hsent. repeat split.
Qed.

Lemma productFrame_catch (w : World) (m : M unit) :
  productFrame w (fst (m w)) ->
  productFrame w (fst (try_catch m catchObjectId w)).
Proof.
  intros Hm. unfold try_catch.
  destruct (m w) as [w1 [[] | e]]; cbn [fst] in *; [exact Hm |].
  destruct (catchObjectId_frame e w1) as [Hdb Hsent].
  unfold productFrame in *. rewrite Hdb, Hsent. exact Hm.
Qed.

Lemma productFrame_saveEdited (product : Product) (b : Body) (w : World)
    (pid : ObjectId) (status : Z) :
  find (Mongoose.hasPid pid) (products (db w)) = Some product ->
  productFrame w
    (fst (bind (ProductController.saveEdited product b)
               (fun _ => res_status status) w)).
Proof.
  intros Hfind.
  assert (Hsave : productFrame w
                    (fst (ProductController.saveEdited product b w))).
  { unfold ProductController.saveEdited.
    destruct (applyProductEdits product b) as [product' |] eqn:Hedit;
      [| apply productFrame_refl; reflexivity].
    destruct (applyProductEdits_keys product product' b Hedit) as [Hid Hfid].
    unfold Mongoose.Product_save, bind, getStore, putStore. cbn [fst snd].
    destruct (existsb (Mongoose.hasPid (p_id product')) (products (db w)));
      [| apply productFrame_refl; reflexivity].
    unfold productFrame. cbn [fst db products fridges sent].
    split; [| split; reflexivity].
    rewrite Hid, (hasPid_found _ _ _ Hfind).
    apply (map_replaceFirst _ _ product _ _ Hfind).
    rewrite Hid, Hfid. reflexivity. }
  unfold bind.
  destruct (ProductController.saveEdited product b w) as [w1 [[] | e]];
    cbn [fst] in *; exact Hsave.
Qed.

(** X19. Whatever the request and the outcome, the product edits leave
    the fridges and the outbound trace as they were and, of every stored
    product, the id and the fridge it belongs to: a product cannot be
    moved to another fridge. *)
Theorem product_edits_frame :
  forall (req : Request) (w : World),
    productFrame w (fst (ProductController.putEdit req w))
    /\ productFrame w (fst (ProductController.patchEdit req w)).
Proof.
  intros req w. split.
  - unfold ProductController.putEdit. apply productFrame_catch.
    unfold Mongoose.Product_findById, Mongoose.castId,
      Mongoose.Product_findByOid.
    unfold bind at 1 2 3.
    destruct (castObjectId (params_id req)) as [pid |];
      [| apply productFrame_refl; reflexivity].
    unfold ret at 1 2. unfold getStore. cbn [fst snd].
    destruct (find (Mongoose.hasPid pid) (products (db w))) as [product |]
      eqn:Hfind; [| apply productFrame_refl; reflexivity].
    repeat (match goal with
            | |- context [if ?c then next _ else _] => destruct c
            end; [apply productFrame_refl; reflexivity |]).
    apply (productFrame_saveEdited _ _ _ pid), Hfind.
  - unfold ProductController.patchEdit. apply productFrame_catch.
    unfold Mongoose.Product_findById, Mongoose.castId,
      Mongoose.Product_findByOid.
    unfold bind at 1 2 3.
    destruct (castObjectId (params_id req)) as [pid |];
      [| apply productFrame_refl; reflexivity].
    unfold ret at 1 2. unfold getStore. cbn [fst snd].
    destruct (find (Mongoose.hasPid pid) (products (db w))) as [product |]
      eqn:Hfind; [| apply productFrame_refl; reflexivity].
    match goal with
    | |- context [if ?c then next _ else _] => destruct c
    end; [apply productFrame_refl; reflexivity |].
    apply (productFrame_saveEdited _ _ _ pid), Hfind.
Qed.

(** X20. patchEdit counts a fridgeId in the body as a change but never
    assigns it: a patch whose body has a fridgeId and nothing else is
    answered 200 and leaves the product, and the whole world, as it
    was. *)
Theorem product_patch_fridgeId_ignored :
  forall (req : Request) (w : World) (pid : ObjectId) (product : Product),
    castObjectId (params_id req) = Some pid ->
    find (Mongoose.hasPid pid) (products (db w)) = Some product ->
    JS.truthy (b_fridgeId (body req)) = true ->
    JS.truthy (b_expirationDate (body req)) = false ->
    JS.truthy (b_name (body req)) = false ->
    JS.truthy_optnum (b_price (body req)) = false ->
    JS.truthy (b_category (body req)) = false ->
    answers w (fst (ProductController.patchEdit req w)) (Res 200).
Proof.
  intros req w pid product Hcast Hfind Hfid Hexp Hname Hprice Hcat.
  assert (Hedit : applyProductEdits product (body req) = Some product).
  { unfold applyProductEdits.
    apply truthy_present in Hexp. apply truthy_present in Hname.
    apply truthy_present in Hcat. apply truthy_optnum_present in Hprice.
    rewrite Hexp, Hname, Hcat, Hprice. destruct product; reflexivity. }
  unfold ProductController.patchEdit, ProductController.saveEdited.
  run_m. rewrite Hcast. cbn [fst snd].
  rewrite Hfind, Hfid, Hexp, Hname, Hprice, Hcat. cbn [negb andb].
  rewrite Hedit. unfold Mongoose.Product_save, bind, getStore, putStore.
  cbn [fst snd].
  rewrite (hasPid_found _ _ _ Hfind), (find_existsb _ _ _ Hfind),
    (replaceFirst_same _ _ _ Hfind).
  cbn. repeat split. destruct (db w); reflexivity.
Qed.

End ProductEdit.

(** ** More on the two middlewares *)

Section Middlewares.
Context `{Runtime}.

Lemma split_prefix (sep : ascii) (s rest : string) :
  JS.mem sep s = false ->
  JS.split sep (s ++ String sep rest)%string = s :: JS.split sep rest.
Proof.
  induction s as [| c s IH]; cbn [append JS.split JS.mem]; intros Hmem.
  - rewrite Ascii.eqb_refl. reflexivity.
  - apply orb_false_elim in Hmem. destruct Hmem as [Hc Hs].
    rewrite Hc, (IH Hs). reflexivity.
Qed.

(** X21. Of the Authorization header only the two pieces before the
    second space count.  A header made of Bearer, a space, a token
    without spaces, a space and anything at all is treated as the header
    without that tail: accepted with the token's claims when the token
    verifies, answered 401 when it does not.  The scheme is compared
    exactly: a header that starts with lower-case bearer is answered
    401. *)
Theorem authenticateJWT_header_shapes :
  forall (req : Request) (token tail : string),
    JS.mem " " token = false ->
    (authorization req = Some ("Bearer " ++ token ++ " " ++ tail)%string ->
     authenticateJWT req
     = match jwt_verify (Some token) with
       | Some payload => (setUser req (principal payload), Next)
       | None =>
           (req, NextErr (HttpError 401 None (Some JsonWebTokenError)))
       end)
    /\ (authorization req = Some ("bearer " ++ token)%string ->
        authenticateJWT req
        = (req, NextErr (HttpError 401 None
                           (Some (Error "Invalid authentication scheme."))))).
Proof.
  intros req token tail Hmem. split.
  - intros Hh. unfold authenticateJWT, authenticateJWT_try. rewrite Hh.
    assert (Hsplit : JS.split " " ("Bearer " ++ token ++ " " ++ tail)%string
                     = "Bearer" :: token :: JS.split " " tail).
    { change ("Bearer " ++ token ++ " " ++ tail)%string
        with ("Bearer" ++ String " " (token ++ String " " tail))%string.
      rewrite (split_prefix " " "Bearer"); [| reflexivity].
      rewrite (split_prefix " " token _ Hmem). reflexivity. }
    rewrite Hsplit. cbn [nth_error].
    change (negb ("Bearer" =? "Bearer")%string) with false. cbv iota.
    destruct (jwt_verify (Some token)); reflexivity.
  - intros Hh. unfold authenticateJWT, authenticateJWT_try. rewrite Hh.
    assert (Hsplit : JS.split " " ("bearer " ++ token)%string
                     = ["bearer"; token]).
    { change ("bearer " ++ token)%string
        with ("bearer" ++ String " " token)%string.
      rewrite (split_prefix " " "bearer"); [| reflexivity].
      rewrite (split_no_separator _ _ Hmem). reflexivity. }
    rewrite Hsplit. reflexivity.
Qed.

Lemma flag_land (f g : Flag) :
  Z.land (flagValue f) (flagValue g)
  = if flagEqb f g then flagValue g else 0.
Proof. destruct f, g; reflexivity. Qed.

Lemma levelOf_land (flags : list Flag) (g : Flag) :
  Z.land (levelOf flags) (flagValue g)
  = if existsb (fun f => flagEqb f g) flags then flagValue g else 0.
Proof.
  induction flags as [| f flags IH]; cbn [levelOf fold_right existsb].
  - reflexivity.
  - fold (levelOf flags). rewrite Z.land_lor_distr_l, IH, flag_land.
    destruct (flagEqb f g), (existsb (fun f0 => flagEqb f0 g) flags);
      cbn [orb]; destruct g; reflexivity.
Qed.

(** X22. A permission level assembled from flags with bitwise or grants
    exactly the flags it was assembled from: the gate lets a principal of
    that level pass for a flag when the flag is among them and hands a
    403 to [next] when it is not.  The empty level 0 passes for none. *)
Theorem hasPermission_assembled_level :
  forall (req : Request) (u : User) (flags : list Flag) (required : Flag),
    hasPermission (setUser req (withLevel u (levelOf flags)))
                  (flagValue required)
    = if existsb (fun f => flagEqb f required) flags
      then Next else NextErr (createError 403).
Proof.
  intros req u flags required.
  rewrite (hasPermission_land req _ (flagValue required)
             (flagValue_range required)).
  cbn [withLevel permissionLevel]. rewrite levelOf_land.
  destruct (existsb (fun f => flagEqb f required) flags);
    [destruct required |]; reflexivity.
Qed.

Lemma handlerOf_requester (ep : Endpoint) (req : Request)
    (header : option string) (u u' : User) (w : World) :
  readsUser ep = false ->
  handlerOf ep (setUser (withAuthorization req header) u') w
  = handlerOf ep (setUser req u) w.
Proof. intros Hep. destruct ep; try discriminate; reflexivity. Qed.

(** X23. Apart from the list of one's fridges and the creation of a
    fridge, an endpoint does the same for every principal that passes its
    gate: the same request sent under the verified token of another user
    leaves the same world, replies included.  Reading, editing and
    deleting a fridge or a product by id, and registering a webhook,
    never compare the owner with the requester. *)
Theorem any_principal_same_effect :
  forall (ep : Endpoint) (req : Request) (header : option string)
         (payload payload' : Payload) (w : World),
    requestOf ep = Some req ->
    readsUser ep = false ->
    authenticateJWT req = (setUser req (principal payload), Next) ->
    authenticateJWT (withAuthorization req header)
    = (setUser (withAuthorization req header) (principal payload'), Next) ->
    Z.land (x_permission_level payload) PermissionLevels.READ <> 0 ->
    Z.land (x_permission_level payload') PermissionLevels.READ <> 0 ->
    handle (withRequest ep (withAuthorization req header)) w = handle ep w.
Proof.
  intros ep req header payload payload' w Hreq Hep Hauth Hauth' Hbit Hbit'.
  assert (Hreq' : requestOf (withRequest ep (withAuthorization req header))
                  = Some (withAuthorization req header)).
  { destruct ep; cbn in Hreq; try discriminate; reflexivity. }
  assert (Hgate : isGated (withRequest ep (withAuthorization req header))
                  = isGated ep).
  { destruct ep; reflexivity. }
  assert (Hhandler : handlerOf (withRequest ep (withAuthorization req header))
                     = handlerOf ep).
  { destruct ep; reflexivity. }
  unfold handle. f_equal.
  destruct (passesSaveFridge ep req) eqn:Hpass.
  - assert (Hpass' : passesSaveFridge
                       (withRequest ep (withAuthorization req header))
                       (withAuthorization req header) = true).
    { destruct ep; exact Hpass. }
    rewrite (serve_route _ _ Hreq' Hpass'), (serve_route _ _ Hreq Hpass).
    unfold route. rewrite Hauth, Hauth', Hgate, Hhandler.
    destruct (isGated ep);
      [| apply (handlerOf_requester ep req header _ _ _ Hep)].
    unfold principal. rewrite !hasPermission_READ. cbn [permissionLevel].
    destruct (Z.eqb_spec (Z.land (x_permission_level payload)
                            PermissionLevels.READ) 0); [contradiction |].
    destruct (Z.eqb_spec (Z.land (x_permission_level payload')
                            PermissionLevels.READ) 0); [contradiction |].
    apply (handlerOf_requester ep req header _ _ _ Hep).
  - destruct ep; cbn in Hreq; try discriminate; injection Hreq as ->;
      unfold passesSaveFridge in Hpass;
      cbn [isProductEndpoint negb orb] in Hpass; try discriminate;
      cbn [serve withRequest]; unfold saveFridge;
      cbn [withAuthorization fridgeId]; rewrite Hpass; reflexivity.
Qed.

(** X24. Login and verification together.  When the credentials are those
    of an account and jsonwebtoken verifies the token it signed for the
    account's payload, login answers 200 with that token, and a request
    that carries it after Bearer and a space is let through with
    [req.user] holding the account's username, names, email, id and
    permission level.  When the credentials are refused, login answers
    401 with the refusal as cause and gives no token. *)
Theorem login_then_authenticate :
  forall (A : Accounts) (username password : option string) (w : World),
    (forall account token,
       User_authenticate username password = inl account ->
       jwt_sign (UserController.payloadOf account) = inl token ->
       jwt_verify (Some token) = Some (UserController.payloadOf account) ->
       JS.mem " " token = false ->
       UserController.login username password w
       = (mkWorld (db w) (sent w) (replied w ++ [Res 200]) (idgen w),
          Ok (Some token))
       /\ forall req,
            authorization req = Some ("Bearer " ++ token)%string ->
            authenticateJWT req
            = (mkRequest (authorization req)
                 (Some (mkUser (a_username account) (a_firstName account)
                               (a_lastName account) (a_email account)
                               (a_id account) (a_permissionLevel account)))
                 (params_id req) (fridgeId req) (body req),
               Next)
            /\ user (fst (authenticateJWT req))
               = Some (mkUser (a_username account) (a_firstName account)
                              (a_lastName account) (a_email account)
                              (a_id account) (a_permissionLevel account)))
    /\ (forall error,
          User_authenticate username password = inr error ->
          UserController.login username password w
          = (mkWorld (db w) (sent w)
                     (replied w ++ [NextErr (HttpError 401 None (Some error))])
                     (idgen w),
             Ok None)
          /\ clientStatus (NextErr (HttpError 401 None (Some error)))
             = Some 401).
Proof.
  intros A username password w. split.
  - intros account token Hacc Hsign Hverify Hmem.
    unfold UserController.login. rewrite Hacc, Hsign.
    split; [reflexivity |].
    intros req Hh. unfold authenticateJWT, authenticateJWT_try. rewrite Hh.
    pose proof (split_Bearer token Hmem) as Hsp.
    rewrite Hsp. cbn [nth_error].
    change (negb ("Bearer" =? "Bearer")%string) with false. cbv iota.
    rewrite Hverify. unfold setUser. rewrite Hh. split; reflexivity.
  - intros error Hacc. unfold UserController.login. rewrite Hacc.
    split; reflexivity.
Qed.

End Middlewares.

(** ** The further properties at the sample data *)

Lemma fridge_create_rejects_witness :
  answers Sample.threeTargets
    (fst (@FridgeController.create Sample.secondRefused
            (Sample.asAlice "" "" Sample.emptyBody) Sample.threeTargets))
    (NextErr (createErrorMsg 400 "Bad request: Missing name for fridge.")).
Proof.
  exact (proj1 (@fridge_create_rejects Sample.secondRefused
                  (Sample.asAlice "" "" Sample.emptyBody)
                  Sample.threeTargets) eq_refl).
Defined.

Lemma fridge_create_stores_witness :
  replied (fst (@FridgeController.create Sample.secondRefused
                  (Sample.asAlice "" "" (Sample.named "shed"))
                  Sample.threeTargets))
  = [Res 201].
Proof.
  destruct (@fridge_create_stores Sample.secondRefused
              (Sample.asAlice "" "" (Sample.named "shed"))
              Sample.threeTargets "shed"
              (mkUser "alice" "Alice" "Andersson" "alice@example.org" "7" 1)
              7%N eq_refl eq_refl eq_refl eq_refl eq_refl)
    as [_ [_ [Hreplied _]]].
  exact Hreplied.
Defined.


Lemma fridge_unknown_id_witness :
  answers Sample.threeTargets
    (fst (@FridgeController.registerWebhook Sample.secondRefused
            (Sample.asAlice "no-id" "" Sample.hook) Sample.threeTargets))
    (NextErr (CastError "ObjectId")).
Proof.
  destruct (proj1 (@fridge_unknown_id Sample.secondRefused
                     (Sample.asAlice "no-id" "" Sample.hook)
                     Sample.threeTargets) eq_refl)
    as [_ [_ [_ [_ [Hregister _]]]]].
  exact Hregister.
Defined.

Lemma fridge_delete_cascade_witness :
  map p_id (products (db (fst (@FridgeController.delete Sample.secondRefused
                                 (Sample.asAlice "1" "" Sample.emptyBody)
                                 Sample.threeTargets))))
  = [31%N].
Proof.
  assert (Hnd : NoDup (map p_id (products (db Sample.threeTargets)))).
  { cbn. repeat constructor; cbn; intuition discriminate. }
  destruct (@fridge_delete_cascade Sample.secondRefused
              (Sample.asAlice "1" "" Sample.emptyBody) Sample.threeTargets
              1%N Sample.kitchen eq_refl eq_refl Hnd)
    as [_ [Hproducts _]].
  rewrite Hproducts. reflexivity.
Defined.


Lemma cleanOut_end_to_end_witness :
  map o_url
      (sent (fst (@FridgeController.cleanOut Sample.allFine Sample.today
                    Sample.threeTargets)))
  = ["http://a.example/hook"; "http://b.example/hook";
     "http://c.example/hook"].
Proof.
  destruct (@cleanOut_end_to_end Sample.allFine Sample.today
              Sample.threeTargets eq_refl eq_refl) as [Hsent _].
  rewrite Hsent. reflexivity.
Defined.

Lemma cleanOut_scan_failure_witness :
  exists msg,
    answers Sample.dangling
      (fst (@FridgeController.cleanOut Sample.allFine Sample.today
              Sample.dangling))
      (NextErr (TypeError msg)).
Proof.
  destruct (@cleanOut_scan_failure Sample.allFine Sample.today
              Sample.dangling eq_refl) as [msg [Hanswers _]].
  exists msg. exact Hanswers.
Defined.


Lemma registered_target_is_called_witness :
  In (mkOutbound "http://b.example/hook"
        (mkNotification 5%N [] (Some "s2")))
     (sent (fst (@FridgeController.cleanOut Sample.allFine Sample.today
                   (fst (@FridgeController.registerWebhook Sample.allFine
                           (Sample.asAlice "5" "" Sample.hook)
                           Sample.threeTargets))))).
Proof.
  exact (@registered_target_is_called Sample.allFine
           (Sample.asAlice "5" "" Sample.hook) Sample.threeTargets 5%N
           Sample.plain "http://b.example/hook" "s2" Sample.today
           eq_refl eq_refl eq_refl eq_refl
           ltac:(discriminate) ltac:(discriminate) eq_refl eq_refl eq_refl).
Defined.

Lemma unauthenticated_request_stops_witness :
  db (@handle Sample.secondRefused
        (DELETE_fridge_id (mkRequest None None "1" "" Sample.emptyBody))
        Sample.threeTargets)
  = db Sample.threeTargets.
Proof.
  destruct (@unauthenticated_request_stops Sample.secondRefused
              (DELETE_fridge_id (mkRequest None None "1" "" Sample.emptyBody))
              (mkRequest None None "1" "" Sample.emptyBody)
              Sample.threeTargets eq_refl ltac:(discriminate))
    as [Hdb _].
  exact Hdb.
Defined.

Lemma routes_ask_for_READ_witness :
  @serve Sample.secondRefused
    (DELETE_fridge_id (Sample.request "1" "" Sample.emptyBody))
    Sample.threeTargets
  = @FridgeController.delete Sample.secondRefused
      (Sample.asAlice "1" "" Sample.emptyBody) Sample.threeTargets.
Proof.
  assert (Hnext : snd (@authenticateJWT Sample.secondRefused
                          (Sample.request "1" "" Sample.emptyBody)) = Next)
    by (vm_compute; reflexivity).
  assert (Hfst : fst (@authenticateJWT Sample.secondRefused
                        (Sample.request "1" "" Sample.emptyBody))
                 = setUser (Sample.request "1" "" Sample.emptyBody)
                           (mkUser (sub Sample.alice)
                                   (given_name Sample.alice)
                                   (family_name Sample.alice)
                                   (email Sample.alice) (id Sample.alice)
                                   (x_permission_level Sample.alice)))
    by (vm_compute; reflexivity).
  assert (Hbit : Z.land (x_permission_level Sample.alice)
                        PermissionLevels.READ <> 0)
    by (vm_compute; discriminate).
  pose proof (@routes_ask_for_READ Sample.secondRefused
                (DELETE_fridge_id (Sample.request "1" "" Sample.emptyBody))
                (Sample.request "1" "" Sample.emptyBody)
                Sample.threeTargets Sample.alice
                eq_refl eq_refl Hnext Hfst) as Hroute.
  destruct Hroute as [Hruns _]. specialize (Hruns (or_introl Hbit)).
  rewrite Hruns, Hfst. vm_compute. reflexivity.
Defined.

Lemma one_answer_per_request_witness :
  exists r,
    replied (@handle Sample.secondRefused (GET_fridge_cleanout Sample.today)
               Sample.threeTargets)
    = [r].
Proof.
  exact (@one_answer_per_request Sample.secondRefused
           (GET_fridge_cleanout Sample.today) Sample.threeTargets eq_refl).
Defined.

Lemma product_create_invalid_witness :
  db (fst (@ProductController.create Sample.secondRefused
             (Sample.asAlice "" "1" Sample.emptyBody) Sample.threeTargets))
  = db Sample.threeTargets.
Proof.
  destruct (@product_create_invalid Sample.secondRefused
              (Sample.asAlice "" "1" Sample.emptyBody) Sample.threeTargets
              (or_introl eq_refl)) as [Hdb _].
  exact Hdb.
Defined.

Lemma product_create_orphan_witness :
  map p_name
      (products (db (fst (@ProductController.create Sample.secondRefused
                            (Sample.asAlice "" "9" (Sample.item "jam"))
                            Sample.threeTargets))))
  = ["milk"; "eggs"; "ham"; "jam"].
Proof.
  destruct (@product_create_orphan Sample.secondRefused
              (Sample.asAlice "" "9" (Sample.item "jam"))
              Sample.threeTargets "jam" Sample.today 9%N
              eq_refl eq_refl eq_refl eq_refl eq_refl) as [Hproducts _].
  rewrite Hproducts. reflexivity.
Defined.

Lemma product_create_stores_witness :
  option_map f_products
    (find (Mongoose.hasId 1%N)
       (fridges
          (db (fst (@ProductController.create Sample.secondRefused
                      (Sample.asAlice "" "1" (Sample.item "jam"))
                      Sample.threeTargets)))))
  = Some [11%N; 12%N; 100%N]
  /\ lookupProduct
       (db (fst (@ProductController.create Sample.secondRefused
                   (Sample.asAlice "" "1" (Sample.item "jam"))
                   Sample.threeTargets)))
       100%N
     = Some (mkProduct 100%N Sample.today None "jam" 1%N None).
Proof.
  destruct (@product_create_stores Sample.secondRefused
              (Sample.asAlice "" "1" (Sample.item "jam"))
              Sample.threeTargets "jam" Sample.today 1%N Sample.kitchen
              eq_refl eq_refl eq_refl eq_refl eq_refl eq_refl eq_refl)
    as [_ [_ [Hlisted [_ [Hlookup _]]]]].
  split; [exact Hlisted | exact Hlookup].
Defined.


Lemma product_patch_fridgeId_ignored_witness :
  exists product,
    find (Mongoose.hasPid 2%N) (products (db Sample.stocked)) = Some product
    /\ answers Sample.stocked
         (fst (@ProductController.patchEdit Sample.secondRefused
                 (Sample.asAlice "2" "1" (Sample.moveTo "0"))
                 Sample.stocked))
         (Res 200).
Proof.
  eexists. split; [vm_compute; reflexivity |].
  eapply (@product_patch_fridgeId_ignored Sample.secondRefused
            (Sample.asAlice "2" "1" (Sample.moveTo "0")) Sample.stocked
            2%N); reflexivity.
Defined.

Lemma authenticateJWT_header_shapes_witness :
  snd (@authenticateJWT Sample.secondRefused
         (withAuthorization (Sample.request "1" "" Sample.emptyBody)
                            (Some "Bearer good and more")))
  = Next.
Proof.
  rewrite (proj1 (@authenticateJWT_header_shapes Sample.secondRefused
                    (withAuthorization
                       (Sample.request "1" "" Sample.emptyBody)
                       (Some "Bearer good and more"))
                    "good" "and more" eq_refl) eq_refl).
  reflexivity.
Defined.

Lemma any_principal_same_effect_witness :
  user (fst (@authenticateJWT Sample.twoUsers
               (Sample.request "1" "" Sample.emptyBody)))
  <> user (fst (@authenticateJWT Sample.twoUsers
                  (withAuthorization (Sample.request "1" "" Sample.emptyBody)
                                     (Some "Bearer fine"))))
  /\ @handle Sample.twoUsers
       (DELETE_fridge_id
          (withAuthorization (Sample.request "1" "" Sample.emptyBody)
                             (Some "Bearer fine")))
       Sample.threeTargets
     = @handle Sample.twoUsers
         (DELETE_fridge_id (Sample.request "1" "" Sample.emptyBody))
         Sample.threeTargets.
Proof.
  split; [vm_compute; discriminate |].
  apply (@any_principal_same_effect Sample.twoUsers
           (DELETE_fridge_id (Sample.request "1" "" Sample.emptyBody))
           (Sample.request "1" "" Sample.emptyBody)
           (Some "Bearer fine") Sample.alice Sample.bob
           Sample.threeTargets);
    try (vm_compute; reflexivity); vm_compute; discriminate.
Defined.

Lemma login_then_authenticate_witness :
  @UserController.login Sample.oneAccount (Some "alice") (Some "secret")
    Sample.empty
  = (mkWorld (db Sample.empty) (sent Sample.empty)
             (replied Sample.empty ++ [Res 200]) (idgen Sample.empty),
     Ok (Some "good"))
  /\ user (fst (@authenticateJWT Sample.secondRefused
                  (Sample.request "1" "" Sample.emptyBody)))
     = Some (mkUser "alice" "Alice" "Andersson" "alice@example.org" "7" 1).
Proof.
  destruct (proj1 (@login_then_authenticate Sample.secondRefused
                     Sample.oneAccount (Some "alice") (Some "secret")
                     Sample.empty)
                  Sample.aliceAccount "good" eq_refl eq_refl eq_refl eq_refl)
    as [Hlogin Hauth].
  split; [exact Hlogin |].
  exact (proj2 (Hauth (Sample.request "1" "" Sample.emptyBody) eq_refl)).
Defined.
